(** * mfdread: Mifare Classic dump reader (src/main.c)

    A shallow embedding of the layout resolution and access-condition
    decoding of [main.c], and the properties of its specification.

    Conventions of the embedding:
    - C [unsigned] and [int] values are [Z]; the 32-bit wrap-around of
      unsigned arithmetic is written out with [u32];
    - [unsigned char] is [Byte.byte], widened to [Z] by [byte_val] where C
      promotes it to [int];
    - an [unsigned char *] is the list of bytes it points at, read with
      [rd];
    - each [printf] of [print_info] is one element of the list of printed
      lines, kept with the arguments of the call ([render] gives its text). *)

From Stdlib Require Import ZArith List String Ascii Bool Lia.
From Stdlib.Strings Require Import Byte.
From Stdlib.Numbers Require Import DecimalString.
Import ListNotations.

Local Open Scope Z_scope.

(** ** Machine integers and bytes *)

Module C.

(** Reduction of a result to [unsigned] (32 bits). *)
Definition u32 (x : Z) : Z := x mod 2 ^ 32.

(** [~x] on an [unsigned]. *)
Definition bnot (x : Z) : Z := u32 (Z.lnot x).

(** Integer promotion of an [unsigned char]. *)
Definition byte_val (b : byte) : Z := Z.of_N (Byte.to_N b).

(** [p[i]] for an [unsigned char *p]. *)
Definition rd (p : list byte) (i : nat) : Z := byte_val (nth i p x00).

(** [&p[off]]. *)
Definition at_offset (p : list byte) (off : Z) : list byte :=
  skipn (Z.to_nat off) p.

Definition EXIT_SUCCESS : Z := 0.
Definition EXIT_FAILURE : Z := 1.

End C.
Import C.

(** ** Access condition decoder (main.c, [get_access_condition]) *)

(** Lines 169-174: sectors 32 to 39 of a 4k card group their blocks in
    clusters of five. *)
Definition slot_index (sector block : Z) : Z :=
  if 32 <=? sector then block / 5 else block.

(** Lines 180-220: the [switch] over the slot; [Some (bits, inverted)] for
    the four cases, [None] for [default]. *)
Definition slot_bits (block : Z) (access_bits : list byte) : option (Z * Z) :=
  let ab := rd access_bits in
  match block with
  | 0 =>
      let bits := Z.land (Z.shiftr (ab 1%nat) 2) 4 in            (* C10 *)
      let bits := Z.lor bits (Z.land (Z.shiftl (ab 2%nat) 1) 2) in (* C20 *)
      let bits := Z.lor bits (Z.land (Z.shiftr (ab 2%nat) 4) 1) in (* C30 *)
      let inverted := Z.land (Z.shiftl (ab 0%nat) 2) 4 in                  (* /C10 *)
      let inverted := Z.lor inverted (Z.land (Z.shiftr (ab 0%nat) 3) 2) in (* /C20 *)
      let inverted := Z.lor inverted (Z.land (Z.shiftr (ab 1%nat) 0) 1) in (* /C30 *)
      Some (bits, inverted)
  | 1 =>
      let bits := Z.land (Z.shiftr (ab 1%nat) 3) 4 in            (* C11 *)
      let bits := Z.lor bits (Z.land (Z.shiftl (ab 2%nat) 0) 2) in (* C21 *)
      let bits := Z.lor bits (Z.land (Z.shiftr (ab 2%nat) 5) 1) in (* C31 *)
      let inverted := Z.land (Z.shiftl (ab 0%nat) 1) 4 in                  (* /C11 *)
      let inverted := Z.lor inverted (Z.land (Z.shiftr (ab 0%nat) 4) 2) in (* /C21 *)
      let inverted := Z.lor inverted (Z.land (Z.shiftr (ab 1%nat) 1) 1) in (* /C31 *)
      Some (bits, inverted)
  | 2 =>
      let bits := Z.land (Z.shiftr (ab 1%nat) 4) 4 in            (* C12 *)
      let bits := Z.lor bits (Z.land (Z.shiftr (ab 2%nat) 1) 2) in (* C22 *)
      let bits := Z.lor bits (Z.land (Z.shiftr (ab 2%nat) 6) 1) in (* C32 *)
      let inverted := Z.land (Z.shiftl (ab 0%nat) 0) 4 in                  (* /C12 *)
      let inverted := Z.lor inverted (Z.land (Z.shiftr (ab 0%nat) 5) 2) in (* /C22 *)
      let inverted := Z.lor inverted (Z.land (Z.shiftr (ab 1%nat) 2) 1) in (* /C32 *)
      Some (bits, inverted)
  | 3 =>
      let bits := Z.land (Z.shiftr (ab 1%nat) 5) 4 in            (* C13 *)
      let bits := Z.lor bits (Z.land (Z.shiftr (ab 2%nat) 2) 2) in (* C23 *)
      let bits := Z.lor bits (Z.land (Z.shiftr (ab 2%nat) 7) 1) in (* C33 *)
      let inverted := Z.land (Z.shiftr (ab 0%nat) 1) 4 in                  (* /C13 *)
      let inverted := Z.lor inverted (Z.land (Z.shiftr (ab 0%nat) 6) 2) in (* /C23 *)
      let inverted := Z.lor inverted (Z.land (Z.shiftr (ab 1%nat) 3) 1) in (* /C33 *)
      Some (bits, inverted)
  | _ => None
  end.

(** Lines 166-228; lines 222-227 are the redundancy check. *)
Definition get_access_condition
    (sector block : Z) (access_bits : list byte) : Z :=
  let block := slot_index sector block in
  match slot_bits block access_bits with
  | None => -1
  | Some (bits, inverted) =>
      if negb (bits =? Z.land (bnot inverted) 7) then -1 else bits
  end.

(** ** Private variables (main.c, lines 46-107) *)

Definition ESC : string := String "027"%char EmptyString.
Definition TAB : string := String "009"%char EmptyString.
Definition NL : string := String "010"%char EmptyString.

Definition ANSI_CTRL_RESET : string := ESC ++ "[0m".
Definition ANSI_CTRL_TEXT_RED : string := ESC ++ "[0;31m".
Definition ANSI_CTRL_TEXT_GREEN : string := ESC ++ "[0;32m".
Definition ANSI_CTRL_TEXT_BLUE : string := ESC ++ "[0;34m".
Definition ANSI_CTRL_TEXT_BOLD_INTENSIV_YELLOW : string := ESC ++ "[1;93m".

Definition bit_rep : list string :=
  ["000"; "001"; "010"; "011"; "100"; "101"; "110"; "111"]%string.

Definition permission_trailer : list string :=
  ["- A | A   - | A A";
   "- A | A   A | A A [transport]";
   "- - | A   - | A -";
   "- B | A/B B | - B";
   "- B | A/B - | - B";
   "- - | A/B B | - -";
   "- - | A/B - | - -";
   "- - | A/B - | - -"]%string.

Definition permission_data : list string :=
  ["A/B | A/B   | A/B | A/B [transport]";
   "A/B |  -    |  -  | A/B [value]";
   "A/B |  -    |  -  |  -  [r/w]";
   "  B |   B   |  -  |  -  [r/w]";
   "A/B |   B   |  -  |  -  [r/w]";
   "  B |  -    |  -  |  -  [r/w]";
   "A/B |   B   |   B | A/B [value]";
   " -  |  -    |  -  |  -  [r/w]"]%string.

Definition empty_string : string := EmptyString.

(** [tbl[i]] for one of the tables of eight strings. *)
Definition entry (tbl : list string) (i : Z) : string :=
  nth (Z.to_nat i) tbl empty_string.

(** The five colour variables. *)
Record palette : Type := {
  color_keyB : string;
  color_keyA : string;
  color_access : string;
  color_warning : string;
  color_default : string
}.

(** Their initial values (lines 103-107). *)
Definition ansi_palette : palette :=
  {| color_keyB := ANSI_CTRL_TEXT_BLUE;
     color_keyA := ANSI_CTRL_TEXT_RED;
     color_access := ANSI_CTRL_TEXT_GREEN;
     color_warning := ANSI_CTRL_TEXT_BOLD_INTENSIV_YELLOW;
     color_default := ANSI_CTRL_RESET |}.

(** Their values after [main] has seen [colored == false] (lines 507-516). *)
Definition plain_palette : palette :=
  {| color_keyB := empty_string;
     color_keyA := empty_string;
     color_access := empty_string;
     color_warning := empty_string;
     color_default := empty_string |}.

(** The flags [main] sets from the command line before it calls
    [print_info]: [-1] and [-n]. *)
Record options : Type := {
  force_1k : bool;
  colored : bool
}.

Definition colors (o : options) : palette :=
  if colored o then ansi_palette else plain_palette.

(** ** Formatting ([printf] conversions used by [print_info]) *)

(** [%d] and [%u] of a value that is not negative. *)
Definition dec (n : Z) : string := NilZero.string_of_int (Z.to_int n).

Definition hex_digit (n : Z) : ascii :=
  nth (Z.to_nat n) (list_ascii_of_string "0123456789abcdef") "0"%char.

(** [%02x] of a promoted [unsigned char]. *)
Definition hex2 (v : Z) : string :=
  String (hex_digit (v / 16)) (String (hex_digit (v mod 16)) EmptyString).

(** [%-Ns]: left-justified in a field of [width] characters. *)
Definition pad_right (width : nat) (s : string) : string :=
  (s ++ string_of_list_ascii (repeat " "%char (width - String.length s)))%string.

(** [for(i=0; i<n; i++) pos += sprintf(&str[pos], "%02x", p[i])]. *)
Definition hex_run (p : list byte) (n : nat) : string :=
  String.concat "" (map (fun i => hex2 (rd p i)) (seq 0 n)).

(** ** Report ([print_info], lines 233-416) *)

(** Lines 248-266: the [switch] over [data_size]; [None] is [default]. *)
Definition sectors_of_size (data_size : Z) : option Z :=
  if data_size =? 320 then Some 5
  else if data_size =? 1024 then Some 16
  else if data_size =? 2048 then Some 32
  else if data_size =? 4096 then Some (32 + 8)
  else None.

(** The text written to [stderr] in the [default] case. *)
Definition wrong_size_message (data_size : Z) : string :=
  ("Wrong file size: " ++ dec data_size ++ " bytes." ++ NL ++
   "Only 320, 1024, 2048 or 4096 bytes is allowed.")%string.

(** Lines 293-313: the four layout variables of a sector. *)
Record layout : Type := {
  blocks : Z;
  block_size : Z;
  sector_size : Z;
  sector_start : Z
}.

Definition sector_layout (sector : Z) : layout :=
  if sector <? 32 then
    let blocks := 4 in
    let block_size := 16 in
    let sector_size := u32 (block_size * blocks) in
    {| blocks := blocks; block_size := block_size;
       sector_size := sector_size;
       sector_start := u32 (sector * sector_size) |}
  else
    let blocks := 16 in
    let block_size := 16 in
    let sector_size := u32 (block_size * blocks) in
    {| blocks := blocks; block_size := block_size;
       sector_size := sector_size;
       sector_start := u32 (2048 + u32 (u32 (sector - 32) * sector_size)) |}.

(** Lines 314-316: where the trailer's three fields start in [data]. *)
Definition trailer_field (l : layout) (field : Z) : Z :=
  u32 (u32 (u32 (sector_start l + sector_size l) - block_size l) + field).

Definition keyA_of (data : list byte) (l : layout) : list byte :=
  at_offset data (trailer_field l 0).
Definition keyB_of (data : list byte) (l : layout) : list byte :=
  at_offset data (trailer_field l 10).
Definition access_bits_of (data : list byte) (l : layout) : list byte :=
  at_offset data (trailer_field l 6).

(** The arguments of the [printf] that ends the body of the block loop
    (lines 407-409). *)
Record row : Type := {
  str_sector : string;
  row_block : Z;
  str_data_hex : string;
  str_access_bits : string;
  str_permissions : string;
  str_data_ascii : string
}.

(** Lines 341-374. *)
Definition data_hex (pal : palette) (data : list byte) (l : layout)
    (block : Z) : string :=
  if block =? u32 (blocks l - 1) then
    (color_keyA pal ++ hex_run (keyA_of data l) 6 ++
     color_access pal ++ hex_run (access_bits_of data l) 4 ++
     color_keyB pal ++ hex_run (keyB_of data l) 6 ++
     color_default pal)%string
  else
    let block_start := u32 (sector_start l + u32 (block * block_size l)) in
    hex_run (at_offset data block_start) (Z.to_nat (block_size l)).

(** Lines 376-405: the access column and the permission text. *)
Definition access_columns (pal : palette) (l : layout)
    (sector block access_condition : Z) : string * string :=
  if (access_condition <? 0) || (access_condition >? 7) then
    ((color_warning pal ++ "ERR" ++ color_default pal)%string, empty_string)
  else if (block =? 0) && (sector =? 0) then
    ((color_access pal ++ entry bit_rep access_condition ++
      color_default pal)%string, "-"%string)
  else if block =? u32 (blocks l - 1) then
    ((color_access pal ++ entry bit_rep access_condition ++
      color_default pal)%string, entry permission_trailer access_condition)
  else
    ((color_access pal ++ entry bit_rep access_condition ++
      color_default pal)%string, entry permission_data access_condition).

(** Lines 321-409: the body of the block loop. *)
Definition block_row (pal : palette) (data : list byte)
    (sector block : Z) : row :=
  let l := sector_layout sector in
  let access_condition :=
    get_access_condition sector block (access_bits_of data l) in
  let cols := access_columns pal l sector block access_condition in
  {| str_sector := if block =? 1 then dec sector else empty_string;
     row_block := block;
     str_data_hex := data_hex pal data l block;
     str_access_bits := fst cols;
     str_permissions := snd cols;
     str_data_ascii := empty_string |}.

(** What [print_info] writes to [stdout], one element per [printf]. *)
Inductive printed : Type :=
| FileSize (data_size sectors : Z)          (* line 268 *)
| Uid (d0 d1 d2 d3 : Z)                     (* line 280 *)
| Bcc (d4 : Z)                              (* line 281 *)
| Sak (d5 : Z)                              (* line 282 *)
| Atqa (d6 d7 : Z)                          (* line 283 *)
| Rule                                      (* lines 285, 317, 413 *)
| Heading1                                  (* line 286 *)
| Heading2                                  (* line 287 *)
| Heading3 (pal : palette)                  (* lines 288-290 *)
| Row (r : row).                            (* lines 407-409 *)

Definition rule_text : string :=
  "====================================================================================================".

Definition render (p : printed) : string :=
  match p with
  | FileSize data_size sectors =>
      "File size: " ++ dec data_size ++ " bytes. Expected " ++ dec sectors ++
      " sectors" ++ NL
  | Uid d0 d1 d2 d3 =>
      TAB ++ "UID: " ++ hex2 d0 ++ hex2 d1 ++ hex2 d2 ++ hex2 d3 ++ NL
  | Bcc d4 => TAB ++ "BCC:  " ++ hex2 d4 ++ NL
  | Sak d5 => TAB ++ "SAK:  " ++ hex2 d5 ++ NL
  | Atqa d6 d7 => TAB ++ "ATQA: " ++ hex2 d6 ++ hex2 d7 ++ NL
  | Rule => rule_text ++ NL
  | Heading1 =>
      "| Sect | Blck |            Data                  | Access |  r  |  w    |  i  | d/t/r [info]       |" ++ NL
  | Heading2 =>
      "|      |      |                                  |  cond. |   A | Acc.  | B                        |" ++ NL
  | Heading3 pal =>
      "|      |      | " ++ color_keyA pal ++ "Key A" ++ color_default pal ++
      "      " ++ color_access pal ++ "Access Bits" ++ color_default pal ++
      "     " ++ color_keyB pal ++ "Key B" ++ color_default pal ++
      " |        | r w | r   w | r w                      |" ++ NL
  | Row r =>
      "| " ++ pad_right 5 (str_sector r) ++ "|  " ++
      pad_right 3 (dec (row_block r)) ++ " | " ++ str_data_hex r ++ " |  " ++
      str_access_bits r ++ "   | " ++ pad_right 38 (str_permissions r) ++
      " | " ++ str_data_ascii r ++ NL
  end%string.

(** [for(i = from; i < from + count; i++) body(i)], the output of the
    iterations in order. *)
Fixpoint for_upto {A : Type} (count : nat) (from : Z) (body : Z -> list A)
    : list A :=
  match count with
  | O => []
  | S count' => body from ++ for_upto count' (from + 1) body
  end.

(** Lines 319-411: the block loop of one sector. *)
Definition block_loop (pal : palette) (data : list byte) (sector : Z)
    : list printed :=
  for_upto (Z.to_nat (blocks (sector_layout sector))) 0
    (fun block => [Row (block_row pal data sector block)]).

(** Lines 291-412: the sector loop. *)
Definition sector_loop (pal : palette) (data : list byte) (sectors : Z)
    : list printed :=
  for_upto (Z.to_nat sectors) 0
    (fun sector => Rule :: block_loop pal data sector).

(** Lines 240-241: [memset] then [fread] into [data[4097]]; the buffer and
    the number of bytes read. *)
Definition data_capacity : nat := 4097.

Definition fread_data (file : list byte) : list byte * Z :=
  let got := firstn data_capacity file in
  (got ++ repeat x00 (data_capacity - List.length got),
   Z.of_nat (List.length got)).

(** The outcome of [print_info]: its return value and what it wrote. *)
Record outcome : Type := {
  exit_code : Z;
  out : list printed;
  err : list string
}.

Definition print_info (o : options) (file : list byte) : outcome :=
  let '(data, data_size) := fread_data file in
  let data_size := if force_1k o then 1024 else data_size in
  match sectors_of_size data_size with
  | None =>
      {| exit_code := EXIT_FAILURE; out := [];
         err := [wrong_size_message data_size] |}
  | Some sectors =>
      let pal := colors o in
      {| exit_code := 0;
         out :=
           [FileSize data_size sectors;
            Uid (rd data 0) (rd data 1) (rd data 2) (rd data 3);
            Bcc (rd data 4);
            Sak (rd data 5);
            Atqa (rd data 6) (rd data 7);
            Rule; Heading1; Heading2; Heading3 pal]
           ++ sector_loop pal data sectors
           ++ [Rule];
         err := [] |}
  end.

(** The rows of a report, in the order they were printed. *)
Definition rows_of (lines : list printed) : list row :=
  flat_map (fun p => match p with Row r => [r] | _ => [] end) lines.

(** The rows one sector contributes, and those of [sectors] sectors. *)
Definition sector_rows (pal : palette) (data : list byte) (sector : Z)
    : list row :=
  for_upto (Z.to_nat (blocks (sector_layout sector))) 0
    (fun block => [block_row pal data sector block]).

Definition report_rows (pal : palette) (data : list byte) (sectors : Z)
    : list row :=
  for_upto (Z.to_nat sectors) 0 (sector_rows pal data).

(** The place of the row of a block among the rows of a report. *)
Definition row_index (sector block : Z) : nat :=
  Z.to_nat
    (if sector <? 32 then sector * 4 + block
     else 32 * 4 + (sector - 32) * 16 + block).

(** The buffer and size [print_info] works on. *)
Definition data_of (file : list byte) : list byte := fst (fread_data file).
Definition data_size_of (o : options) (file : list byte) : Z :=
  if force_1k o then 1024 else snd (fread_data file).

(** ** Bits of a byte *)

(** Bit [i] of [access_bits[n]], as 0 or 1. *)
Definition bit (access_bits : list byte) (n : nat) (i : Z) : Z :=
  Z.b2z (Z.testbit (rd access_bits n) i).

(** The six access bits of slot [k] by their place in the trailer (the
    positions named in the comments of [get_access_condition]). *)
Definition C1 (ab : list byte) (k : Z) : Z := bit ab 1 (4 + k).
Definition C2 (ab : list byte) (k : Z) : Z := bit ab 2 k.
Definition C3 (ab : list byte) (k : Z) : Z := bit ab 2 (4 + k).
Definition nC1 (ab : list byte) (k : Z) : Z := bit ab 0 k.
Definition nC2 (ab : list byte) (k : Z) : Z := bit ab 0 (4 + k).
Definition nC3 (ab : list byte) (k : Z) : Z := bit ab 1 k.

(** Fixtures used below: the factory (transport) access bytes, and access
    bytes that give every slot C1 = 1, C2 = 0, C3 = 0. *)
Definition transport_bytes : list byte := [xff; x07; x80; x00].
Definition c1_only_bytes : list byte := [xf0; xff; x00; x00].

(** A sector of four blocks whose trailer holds the given access bytes
    and zero elsewhere, and a dump of 320 bytes whose sector 2 has bit 0 of
    access byte 2 flipped (C2 of slot 0 no longer matches its inverse). *)
Definition sector_with (access_bits : list byte) : list byte :=
  repeat x00 54 ++ access_bits ++ repeat x00 6.

Definition sample_dump : list byte :=
  sector_with transport_bytes ++ sector_with transport_bytes ++
  sector_with [xff; x07; x81; x00] ++
  sector_with transport_bytes ++ sector_with transport_bytes.

(** ** The program name ([ident_from_argv0], lines 141-159) *)

(** [strrchr(s, c)] of libc for a character [c] other than the terminator:
    the part of [s] from the last [c] on, [None] for a null pointer. *)
Fixpoint strrchr (s : string) (c : ascii) : option string :=
  match s with
  | EmptyString => None
  | String a rest =>
      match strrchr rest c with
      | Some p => Some p
      | None => if Ascii.eqb a c then Some s else None
      end
  end.

(** [p++] on a pointer into a string. *)
Definition next_char (p : string) : string :=
  match p with
  | EmptyString => EmptyString
  | String _ q => q
  end.

Definition BACKSLASH : ascii := "092"%char.

(** [win32] says whether [__WIN32__] is defined. *)
Definition ident_from_argv0 (win32 : bool) (argv0 : string) : string :=
  let p := strrchr argv0 "/" in
  let p := strrchr argv0 "/" in
  let p :=
    if win32 then
      match p with
      | None => strrchr argv0 BACKSLASH
      | Some _ => p
      end
    else p in
  match p with
  | Some p => next_char p
  | None => argv0
  end.

(** ** Help and version ([print_help], [print_version], lines 112-136) *)

Definition print_help (progname : string) : string :=
  ("Usage: " ++ progname ++ " [OPTION] <FILE>" ++ NL ++
   "Parse Mifare dump FILE and show details." ++ NL ++
   "Options:" ++ NL ++
   " -h, --help      : Print this help message" ++ NL ++
   "     --version   : Print the version number and exit" ++ NL ++
   " -v, --verbose   : Print verbose debug statements" ++ NL ++
   " -1             : Force 1k format" ++ NL ++
   " -n, --no-color  : Do not colorize the output" ++ NL)%string.

(** [%02d]. *)
Definition dec2 (n : Z) : string :=
  let s := dec n in
  (string_of_list_ascii (repeat "0"%char (2 - String.length s)) ++ s)%string.

(** The cast [(int)x]: reduction to 32 bits, read as signed. *)
Definition to_int (x : Z) : Z := (x + 2 ^ 31) mod 2 ^ 32 - 2 ^ 31.

(** [MAJOR] and [MINOR] come from version.h, which is generated by the
    build; their values are parameters here, cast to [int] as line 132
    does. *)
Definition print_version (MAJOR MINOR : Z) (progname : string) : string :=
  (progname ++ " " ++ dec (to_int MAJOR) ++ "." ++ dec2 (to_int MINOR) ++ NL ++
   "Copyright (C) 2024 Petr Pazourek GmbH" ++ NL ++
   "Copyright (C) 2014-2024 Pavel Zhovner <pavel@zhovner.com>" ++ NL ++
   "This program is Free Software and has ABSOLUTELY NO WARRANTY" ++ NL)%string.

(** ** The command line ([main], lines 421-525) *)

Definition OPT_LONG_HELP : Z := 0x100.
Definition OPT_VERBOSE : Z := 0x101.
Definition OPT_VERSION : Z := 0x102.

(** A character constant as an [int]. *)
Definition chr (c : ascii) : Z := Z.of_nat (nat_of_ascii c).

(** The three variables the option loop writes. *)
Record flags : Type := {
  verbose : Z;
  flag_force_1k : bool;
  flag_colored : bool
}.

Definition initial_flags : flags :=
  {| verbose := 0; flag_force_1k := false; flag_colored := true |}.

(** What a run of [main] leaves behind: its exit status and what was
    written to the two streams, the message [getopt_long] itself writes to
    [stderr] for an option it rejects included. *)
Record run : Type := {
  status : Z;
  stdout : list string;
  stderr : list string
}.

(** Lines 429-463: one call of [getopt_long] that returned [c], and the
    [switch] over [c]; [inr] is a call of [exit].  [opterr] is never
    cleared, so a call that returns [?] has first written its own message
    [said] to [stderr]: that is libc's doing and libc's text. *)
Definition handle_option (MAJOR MINOR : Z) (progname : string)
    (said : string) (c : Z) (f : flags) : flags + run :=
  if (c =? chr "h") || (c =? OPT_LONG_HELP) then
    inr {| status := EXIT_SUCCESS; stdout := [print_help progname];
           stderr := [] |}
  else if c =? OPT_VERSION then
    inr {| status := EXIT_SUCCESS;
           stdout := [print_version MAJOR MINOR progname]; stderr := [] |}
  else if (c =? chr "v") || (c =? OPT_VERBOSE) then
    inl {| verbose := verbose f + 1; flag_force_1k := flag_force_1k f;
           flag_colored := flag_colored f |}
  else if c =? chr "1" then
    inl {| verbose := verbose f; flag_force_1k := true;
           flag_colored := flag_colored f |}
  else if c =? chr "n" then
    inl {| verbose := verbose f; flag_force_1k := flag_force_1k f;
           flag_colored := false |}
  else
    inr {| status := EXIT_FAILURE; stdout := [print_help progname];
           stderr := if c =? chr "?" then [said] else [] |}.

(** Lines 426-464: the option loop.  [getopt_long] is libc: [codes] are the
    values it returns one call after the other; the end of the list, or
    -1, is its -1.  [said i] is the message call number [i] writes to
    [stderr] when it returns [?]; [call] counts the calls made so far. *)
Fixpoint option_loop (MAJOR MINOR : Z) (progname : string)
    (said : nat -> string) (call : nat) (codes : list Z) (f : flags)
    : flags + run :=
  match codes with
  | [] => inl f
  | c :: rest =>
      if c =? -1 then inl f
      else
        match handle_option MAJOR MINOR progname (said call) c f with
        | inl f' => option_loop MAJOR MINOR progname said (S call) rest f'
        | inr r => inr r
        end
  end.

(** What [main] is run with: [argv[0]]; the values of [getopt_long] and
    the messages it writes with its [?]; the arguments from [optind] on;
    the files that can be opened, with their contents; the contents of
    standard input; whether [__WIN32__] is defined; and, when [_WIN32] is
    defined, whether [SetConsoleMode] succeeded. *)
Record world : Type := {
  argv0 : string;
  codes : list Z;
  getopt_error : nat -> string;
  operands : list string;
  files : string -> option (list byte);
  stdin : list byte;
  win32 : bool;
  console : option bool
}.

Definition main (MAJOR MINOR : Z) (w : world) : run :=
  let progname := ident_from_argv0 (win32 w) (argv0 w) in
  match option_loop MAJOR MINOR progname (getopt_error w) 0 (codes w)
          initial_flags with
  | inr r => r
  | inl f =>
      match operands w with
      | [] =>
          {| status := EXIT_FAILURE; stdout := [];
             stderr := [("No input file has been specified" ++ NL)%string] |}
      | [input_file] =>
          let fp :=
            if String.eqb input_file "-" then Some (stdin w)
            else files w input_file in
          match fp with
          | None =>
              {| status := EXIT_FAILURE; stdout := [];
                 stderr :=
                   [("Error opening the input file " ++ input_file)%string] |}
          | Some content =>
              let colored :=
                match console w with
                | Some false => false
                | _ => flag_colored f
                end in
              let r :=
                print_info {| force_1k := flag_force_1k f;
                              colored := colored |} content in
              {| status := exit_code r; stdout := map render (out r);
                 stderr := err r |}
          end
      | _ =>
          {| status := EXIT_FAILURE; stdout := [];
             stderr :=
               [("Only one input file can be specified" ++ NL)%string] |}
      end
  end.

(** ** Helpers of the further properties

    These are not functions of main.c: they build inputs and name
    predicates for the statements and proofs of the second part. *)

(** The byte with a given value in 0..255. *)
Definition byte_of_Z (z : Z) : byte :=
  match Byte.of_N (Z.to_N z) with Some b => b | None => x00 end.

(** Access bytes holding the conditions [c0] to [c3] of the four slots,
    each written as C1 C2 C3, with their inverted copies. *)
Definition access_bytes_for (c0 c1 c2 c3 : Z) : list byte :=
  let nibble (f : Z -> Z) := f c0 + 2 * f c1 + 4 * f c2 + 8 * f c3 in
  let n1 := nibble (fun c => Z.land (Z.shiftr c 2) 1) in
  let n2 := nibble (fun c => Z.land (Z.shiftr c 1) 1) in
  let n3 := nibble (fun c => Z.land c 1) in
  [byte_of_Z ((15 - n2) * 16 + (15 - n1));
   byte_of_Z (n1 * 16 + (15 - n3));
   byte_of_Z (n3 * 16 + n2);
   x00].

Definition conditions : list Z := [0; 1; 2; 3; 4; 5; 6; 7].

(** The options that only set a flag. *)
Definition is_flag (c : Z) : bool :=
  (c =? chr "v") || (c =? OPT_VERBOSE) || (c =? chr "1") || (c =? chr "n").

(** The characters of a string. *)
Definition chars (s : string) : list ascii := list_ascii_of_string s.

(** A text without a newline. *)
Definition no_newline (s : string) : bool :=
  forallb (fun c => negb (Ascii.eqb c "010"%char)) (chars s).

(** A text that is one line: its only newline is its last character. *)
Fixpoint is_line (s : string) : bool :=
  match s with
  | EmptyString => false
  | String c r =>
      if Ascii.eqb c "010"%char
      then match r with EmptyString => true | _ => false end
      else is_line r
  end.

(** The text [print_info] leaves on [stdout]: what its calls of [printf]
    wrote, one after the other. *)
Definition stdout_text (lines : list printed) : string :=
  String.concat "" (map render lines).

(** A character a terminal shows as it is: tab, newline or printable
    ASCII. *)
Definition printable_char (c : ascii) : bool :=
  let n := nat_of_ascii c in
  ((n =? 9) || (n =? 10) || ((32 <=? n) && (n <=? 126)))%nat.

(** A text of such characters only, the escape character being allowed
    as well when [allow_esc] is set. *)
Definition clean (allow_esc : bool) (s : string) : bool :=
  forallb (fun c => printable_char c
                    || (allow_esc && (nat_of_ascii c =? 27)%nat))
    (list_ascii_of_string s).

Definition is_rule (p : printed) : bool :=
  match p with Rule => true | _ => false end.

(** A run on [sample_dump] from standard input with given option
    values. *)
Definition sample_world (codes : list Z) : world :=
  {| argv0 := "./mfdread"; codes := codes;
     getopt_error := fun _ => "mfdread: invalid option"%string;
     operands := ["-"%string];
     files := fun _ => None; stdin := sample_dump;
     win32 := false; console := None |}.

(** * Properties *)

(** ** Bit extraction *)

Lemma land_pow2 (x m : Z) :
  0 <= m -> Z.land x (2 ^ m) = Z.b2z (Z.testbit x m) * 2 ^ m.
Proof.
  intros Hm. apply Z.bits_inj'. intros i Hi.
  rewrite Z.land_spec, Z.pow2_bits_eqb by assumption.
  rewrite <- Z.shiftl_mul_pow2 by assumption.
  rewrite Z.shiftl_spec by assumption.
  destruct (Z.eqb_spec m i) as [->|Hne].
  - rewrite Z.sub_diag, Z.b2z_bit0, Bool.andb_true_r. reflexivity.
  - rewrite Bool.andb_false_r.
    destruct (Z.ltb_spec i m).
    + rewrite Z.testbit_neg_r by lia. reflexivity.
    + destruct (Z.testbit x m); cbn [Z.b2z].
      * symmetry. apply (Z.pow2_bits_false 0). lia.
      * symmetry. apply Z.bits_0.
Qed.

Lemma take_shiftr (x n m w : Z) :
  0 <= n -> 0 <= m -> w = 2 ^ m ->
  Z.land (Z.shiftr x n) w = Z.b2z (Z.testbit x (m + n)) * w.
Proof.
  intros Hn Hm ->. rewrite land_pow2 by assumption.
  rewrite Z.shiftr_spec by assumption. reflexivity.
Qed.

Lemma take_shiftl (x n m w : Z) :
  0 <= n <= m -> w = 2 ^ m ->
  Z.land (Z.shiftl x n) w = Z.b2z (Z.testbit x (m - n)) * w.
Proof.
  intros H ->. rewrite land_pow2 by lia.
  rewrite Z.shiftl_spec by lia. reflexivity.
Qed.

Lemma lor3 (a b c : bool) :
  Z.lor (Z.lor (Z.b2z a * 4) (Z.b2z b * 2)) (Z.b2z c * 1)
  = Z.b2z a * 4 + Z.b2z b * 2 + Z.b2z c.
Proof. destruct a, b, c; reflexivity. Qed.

Lemma slot_bits_spec (ab : list byte) (k : Z) :
  0 <= k <= 3 ->
  slot_bits k ab =
    Some (C1 ab k * 4 + C2 ab k * 2 + C3 ab k,
          nC1 ab k * 4 + nC2 ab k * 2 + nC3 ab k).
Proof.
  intros Hk.
  assert (k = 0 \/ k = 1 \/ k = 2 \/ k = 3) as [-> | [-> | [-> | ->]]] by lia;
    unfold slot_bits, C1, C2, C3, nC1, nC2, nC3, bit;
    cbv zeta;
    rewrite ?(take_shiftr _ _ 2 4), ?(take_shiftr _ _ 1 2),
      ?(take_shiftr _ _ 0 1), ?(take_shiftl _ _ 2 4), ?(take_shiftl _ _ 1 2)
      by (reflexivity || lia);
    rewrite !lor3; reflexivity.
Qed.


(** The comparison of line 222 on two triples of bits: it holds exactly
    when every direct bit is the complement of its inverted copy. *)
Lemma check_triples (a b c a' b' c' : bool) :
  (Z.b2z a * 4 + Z.b2z b * 2 + Z.b2z c
   =? Z.land (bnot (Z.b2z a' * 4 + Z.b2z b' * 2 + Z.b2z c')) 7)
  = Bool.eqb a (negb a') && Bool.eqb b (negb b') && Bool.eqb c (negb c').
Proof. destruct a, b, c, a', b', c'; reflexivity. Qed.

Lemma triple_range (a b c : bool) :
  0 <= Z.b2z a * 4 + Z.b2z b * 2 + Z.b2z c <= 7.
Proof. destruct a, b, c; cbn; lia. Qed.

Lemma complement_sum (a a' : bool) :
  Bool.eqb a (negb a') = true <-> Z.b2z a + Z.b2z a' = 1.
Proof. destruct a, a'; cbn; split; (discriminate || reflexivity || lia). Qed.

(** ** The decoder *)

(** The result of the decoder on a slot in 0..3, in terms of the six bits
    of the slot. *)
Lemma get_access_condition_slot (ab : list byte) (sector block : Z) :
  0 <= slot_index sector block <= 3 ->
  let k := slot_index sector block in
  get_access_condition sector block ab =
    if Bool.eqb (Z.testbit (rd ab 1) (4 + k)) (negb (Z.testbit (rd ab 0) k))
       && Bool.eqb (Z.testbit (rd ab 2) k) (negb (Z.testbit (rd ab 0) (4 + k)))
       && Bool.eqb (Z.testbit (rd ab 2) (4 + k)) (negb (Z.testbit (rd ab 1) k))
    then C1 ab k * 4 + C2 ab k * 2 + C3 ab k
    else -1.
Proof.
  intros Hk k. unfold get_access_condition. fold k.
  rewrite (slot_bits_spec ab k Hk).
  unfold C1, C2, C3, nC1, nC2, nC3, bit.
  rewrite check_triples.
  destruct (_ && _ && _); reflexivity.
Qed.

(** Decoding a slot in 0..3 succeeds exactly when each direct bit is the
    complement of its inverted copy. *)
Lemma decode_succeeds_iff (ab : list byte) (sector block : Z) :
  0 <= slot_index sector block <= 3 ->
  let k := slot_index sector block in
  get_access_condition sector block ab <> -1
  <-> C1 ab k + nC1 ab k = 1 /\ C2 ab k + nC2 ab k = 1 /\
      C3 ab k + nC3 ab k = 1.
Proof.
  intros Hk k. rewrite (get_access_condition_slot ab sector block Hk).
  fold k. unfold C1, C2, C3, nC1, nC2, nC3, bit.
  rewrite <- !complement_sum.
  destruct (Bool.eqb _ _), (Bool.eqb _ _), (Bool.eqb _ _); cbn [andb];
    split; try (intros H; now elim H); try (intros (? & ? & ?); discriminate);
    intros _; try (repeat split; reflexivity);
    match goal with
    | |- ?v <> -1 =>
        pose proof (triple_range (Z.testbit (rd ab 1) (4 + k))
                      (Z.testbit (rd ab 2) k)
                      (Z.testbit (rd ab 2) (4 + k))); lia
    end.
Qed.

Lemma get_access_condition_default (ab : list byte) (sector block : Z) :
  ~ 0 <= slot_index sector block <= 3 ->
  get_access_condition sector block ab = -1.
Proof.
  intros Hk. unfold get_access_condition, slot_bits.
  destruct (slot_index sector block) as [|p|p]; try lia; try reflexivity.
  destruct p as [[|q|]|[|q|]|]; try lia; reflexivity.
Qed.

Lemma get_access_condition_range (ab : list byte) (sector block : Z) :
  get_access_condition sector block ab = -1 \/
  0 <= get_access_condition sector block ab <= 7.
Proof.
  destruct (Z_le_dec 0 (slot_index sector block)) as [H0|H0];
    [destruct (Z_le_dec (slot_index sector block) 3) as [H3|H3]|].
  - rewrite get_access_condition_slot by lia.
    destruct (_ && _ && _); [right|left; reflexivity].
    unfold C1, C2, C3, bit. apply triple_range.
  - left. apply get_access_condition_default. lia.
  - left. apply get_access_condition_default. lia.
Qed.

(** C1. For every four access bytes and every block whose slot [k] is in
    0..3, the switch yields the direct value [bits], assembled from the
    direct positions of slot [k] (bit 4+k of byte 1, bits k and 4+k of byte
    2) and so in 0..7, and an inverted value assembled from the
    complemented positions of slot [k] (bits k and 4+k of byte 0, bit k of
    byte 1); the decoder returns [bits] exactly when
    [bits == (~inverted) & 7], and returns -1 when that comparison
    fails. *)
Theorem C1_checksum_decides_the_result
    (b0 b1 b2 b3 : byte) (sector block : Z) :
  let ab := [b0; b1; b2; b3] in
  let k := slot_index sector block in
  0 <= k <= 3 ->
  exists bits inverted,
    slot_bits k ab = Some (bits, inverted) /\
    0 <= bits <= 7 /\
    bits = Z.b2z (Z.testbit (byte_val b1) (4 + k)) * 4
           + Z.b2z (Z.testbit (byte_val b2) k) * 2
           + Z.b2z (Z.testbit (byte_val b2) (4 + k)) /\
    inverted = Z.b2z (Z.testbit (byte_val b0) k) * 4
               + Z.b2z (Z.testbit (byte_val b0) (4 + k)) * 2
               + Z.b2z (Z.testbit (byte_val b1) k) /\
    inverted = nC1 ab k * 4 + nC2 ab k * 2 + nC3 ab k /\
    (get_access_condition sector block ab = bits
     <-> bits = Z.land (bnot inverted) 7) /\
    (bits <> Z.land (bnot inverted) 7
     -> get_access_condition sector block ab = -1).
Proof.
  intros ab k Hk.
  exists (C1 ab k * 4 + C2 ab k * 2 + C3 ab k),
         (nC1 ab k * 4 + nC2 ab k * 2 + nC3 ab k).
  pose proof (slot_bits_spec ab k Hk) as Hs.
  assert (0 <= C1 ab k * 4 + C2 ab k * 2 + C3 ab k <= 7) as Hr
    by (unfold C1, C2, C3, bit; apply triple_range).
  split; [exact Hs|]. split; [exact Hr|].
  split; [reflexivity|]. split; [reflexivity|]. split; [reflexivity|].
  split; [split|].
  - unfold get_access_condition. fold k. rewrite Hs.
    destruct (Z.eqb_spec (C1 ab k * 4 + C2 ab k * 2 + C3 ab k)
                (Z.land (bnot (nC1 ab k * 4 + nC2 ab k * 2 + nC3 ab k)) 7))
      as [He|Hne]; cbn [negb]; intros H; [exact He | lia].
  - intros He. unfold get_access_condition. fold k. rewrite Hs.
    rewrite <- He, Z.eqb_refl. reflexivity.
  - intros Hne. unfold get_access_condition. fold k. rewrite Hs.
    destruct (Z.eqb_spec (C1 ab k * 4 + C2 ab k * 2 + C3 ab k)
                (Z.land (bnot (nC1 ab k * 4 + nC2 ab k * 2 + nC3 ab k)) 7))
      as [He|_]; [contradiction | reflexivity].
Qed.

Lemma C1_witness :
  0 <= slot_index 0 3 <= 3 /\
  exists bits inverted,
    slot_bits (slot_index 0 3) transport_bytes = Some (bits, inverted) /\
    0 <= bits <= 7 /\
    bits = Z.b2z (Z.testbit (byte_val x07) (4 + slot_index 0 3)) * 4
           + Z.b2z (Z.testbit (byte_val x80) (slot_index 0 3)) * 2
           + Z.b2z (Z.testbit (byte_val x80) (4 + slot_index 0 3)) /\
    inverted = Z.b2z (Z.testbit (byte_val xff) (slot_index 0 3)) * 4
               + Z.b2z (Z.testbit (byte_val xff) (4 + slot_index 0 3)) * 2
               + Z.b2z (Z.testbit (byte_val x07) (slot_index 0 3)) /\
    inverted = nC1 transport_bytes (slot_index 0 3) * 4
               + nC2 transport_bytes (slot_index 0 3) * 2
               + nC3 transport_bytes (slot_index 0 3) /\
    (get_access_condition 0 3 transport_bytes = bits
     <-> bits = Z.land (bnot inverted) 7) /\
    (bits <> Z.land (bnot inverted) 7
     -> get_access_condition 0 3 transport_bytes = -1).
Proof.
  split.
  - cbv. split; discriminate.
  - apply (C1_checksum_decides_the_result xff x07 x80 x00 0 3).
    cbv. split; discriminate.
Defined.

(** C2, as the code has it. For every four access bytes and every block
    whose slot [k] is in 0..3 on which decoding succeeds, the returned
    value is C1 C2 C3 with C1 the most significant bit, that is
    C1k*4 + C2k*2 + C3k, where C1k is bit 4+k of byte 1, C2k bit k of
    byte 2 and C3k bit 4+k of byte 2. *)
Theorem C2_value_is_C1_C2_C3
    (b0 b1 b2 b3 : byte) (sector block : Z) :
  let ab := [b0; b1; b2; b3] in
  let k := slot_index sector block in
  0 <= k <= 3 ->
  get_access_condition sector block ab <> -1 ->
  get_access_condition sector block ab
  = Z.b2z (Z.testbit (byte_val b1) (4 + k)) * 4
    + Z.b2z (Z.testbit (byte_val b2) k) * 2
    + Z.b2z (Z.testbit (byte_val b2) (4 + k)).
Proof.
  intros ab k Hk. rewrite (get_access_condition_slot ab sector block Hk).
  fold k. destruct (_ && _ && _); [intros _ | intros H; now elim H].
  reflexivity.
Qed.

Lemma C2_witness :
  0 <= slot_index 0 0 <= 3 /\
  get_access_condition 0 0 c1_only_bytes <> -1 /\
  get_access_condition 0 0 c1_only_bytes
  = Z.b2z (Z.testbit (byte_val xff) (4 + slot_index 0 0)) * 4
    + Z.b2z (Z.testbit (byte_val x00) (slot_index 0 0)) * 2
    + Z.b2z (Z.testbit (byte_val x00) (4 + slot_index 0 0)).
Proof.
  split; [cbv; split; discriminate|].
  split; [cbv; discriminate|].
  apply (C2_value_is_C1_C2_C3 xf0 xff x00 x00 0 0).
  - cbv. split; discriminate.
  - cbv. discriminate.
Defined.

(** C2 as it is written (C3k*4 + C2k*2 + C1k) fails: with C1 = 1 and
    C2 = C3 = 0 in every slot, decoding slot 0 succeeds with 4, not 1. *)
Lemma C2_counterexample :
  let ab := c1_only_bytes in
  get_access_condition 0 0 ab = 4 /\
  get_access_condition 0 0 ab <> -1 /\
  C3 ab 0 * 4 + C2 ab 0 * 2 + C1 ab 0 = 1 /\
  get_access_condition 0 0 ab <> C3 ab 0 * 4 + C2 ab 0 * 2 + C1 ab 0.
Proof. cbv. repeat split; discriminate. Qed.

(** C6, as the code has it. For the access bytes FF 07 80 00 decoding
    succeeds for every slot; slots 0, 1 and 2 decode to condition 0 and
    slot 3 (the trailer) to condition 1. *)
Theorem C6_transport_bytes_decode :
  get_access_condition 0 0 transport_bytes = 0 /\
  get_access_condition 0 1 transport_bytes = 0 /\
  get_access_condition 0 2 transport_bytes = 0 /\
  get_access_condition 0 3 transport_bytes = 1.
Proof. repeat split; reflexivity. Qed.

(** C6 as it is written fails at slot 3: the decoder succeeds there, with
    condition 1 and not 0. *)
Lemma C6_counterexample :
  get_access_condition 0 3 transport_bytes <> -1 /\
  get_access_condition 0 3 transport_bytes <> 0.
Proof. cbv. split; discriminate. Qed.

(** C4. In a sector with index 32 or more, two blocks [b], [b'] of 0..15
    with [b / 5 = b' / 5] decode to the same result, which is the result of
    slot [b / 5]; blocks 0-4 are slot 0, 5-9 slot 1, 10-14 slot 2 and block
    15 slot 3. *)
Theorem C4_cluster_blocks_agree
    (b0 b1 b2 b3 : byte) (sector b b' : Z) :
  let ab := [b0; b1; b2; b3] in
  32 <= sector -> 0 <= b <= 15 -> 0 <= b' <= 15 -> b / 5 = b' / 5 ->
  get_access_condition sector b ab = get_access_condition sector b' ab /\
  get_access_condition sector b ab = get_access_condition 0 (b / 5) ab /\
  slot_index sector b = b / 5 /\
  (b <= 4 -> slot_index sector b = 0) /\
  (5 <= b <= 9 -> slot_index sector b = 1) /\
  (10 <= b <= 14 -> slot_index sector b = 2) /\
  (b = 15 -> slot_index sector b = 3).
Proof.
  intros ab Hs Hb Hb' Heq.
  assert (forall x, slot_index sector x = x / 5) as Hslot.
  { intros x. unfold slot_index.
    destruct (Z.leb_spec 32 sector); [reflexivity | lia]. }
  assert (forall x, get_access_condition sector x ab
                    = get_access_condition 0 (x / 5) ab) as Hget.
  { intros x. unfold get_access_condition. rewrite Hslot. reflexivity. }
  rewrite Hslot.
  repeat split.
  - rewrite !Hget, Heq. reflexivity.
  - apply Hget.
  - intros H. apply Z.div_small. lia.
  - intros H. symmetry. apply (Z.div_unique b 5 1 (b - 5)); lia.
  - intros H. symmetry. apply (Z.div_unique b 5 2 (b - 10)); lia.
  - intros ->. reflexivity.
Qed.

Lemma C4_witness :
  32 <= 35 /\ 0 <= 6 <= 15 /\ 0 <= 9 <= 15 /\ 6 / 5 = 9 / 5 /\
  get_access_condition 35 6 transport_bytes
  = get_access_condition 35 9 transport_bytes.
Proof.
  assert (32 <= 35) as H1 by (cbv; discriminate).
  assert (0 <= 6 <= 15) as H2 by (cbv; split; discriminate).
  assert (0 <= 9 <= 15) as H3 by (cbv; split; discriminate).
  assert (6 / 5 = 9 / 5) as H4 by reflexivity.
  exact (conj H1 (conj H2 (conj H3 (conj H4
    (proj1 (C4_cluster_blocks_agree xff x07 x80 x00 35 6 9 H1 H2 H3 H4)))))).
Defined.

(** C10. For every sector index, block index and four access bytes the
    decoder returns -1 or a value in 0..7; when the slot falls outside 0..3
    it returns -1. *)
Theorem C10_decoder_range
    (b0 b1 b2 b3 : byte) (sector block : Z) :
  let r := get_access_condition sector block [b0; b1; b2; b3] in
  (r = -1 \/ 0 <= r <= 7) /\
  (~ 0 <= slot_index sector block <= 3 -> r = -1).
Proof.
  split.
  - apply get_access_condition_range.
  - apply get_access_condition_default.
Qed.

Lemma C10_witness :
  ~ 0 <= slot_index 39 20 <= 3 /\
  get_access_condition 39 20 transport_bytes = -1.
Proof.
  assert (~ 0 <= slot_index 39 20 <= 3) as H.
  { cbv. intros [_ H]. apply H. reflexivity. }
  split; [exact H|].
  exact (proj2 (C10_decoder_range xff x07 x80 x00 39 20) H).
Defined.

(** ** Geometry *)

Lemma sectors_of_size_cases (data_size : Z) :
  (data_size = 320 /\ sectors_of_size data_size = Some 5) \/
  (data_size = 1024 /\ sectors_of_size data_size = Some 16) \/
  (data_size = 2048 /\ sectors_of_size data_size = Some 32) \/
  (data_size = 4096 /\ sectors_of_size data_size = Some 40) \/
  (data_size <> 320 /\ data_size <> 1024 /\ data_size <> 2048 /\
   data_size <> 4096 /\ sectors_of_size data_size = None).
Proof.
  unfold sectors_of_size.
  destruct (Z.eqb_spec data_size 320) as [->|H1]; [left; auto|].
  destruct (Z.eqb_spec data_size 1024) as [->|H2]; [right; left; auto|].
  destruct (Z.eqb_spec data_size 2048) as [->|H3]; [right; right; left; auto|].
  destruct (Z.eqb_spec data_size 4096) as [->|H4];
    [right; right; right; left; auto|].
  right; right; right; right. auto.
Qed.

Lemma sectors_of_size_Some (data_size sectors : Z) :
  sectors_of_size data_size = Some sectors ->
  (data_size = 320 /\ sectors = 5) \/ (data_size = 1024 /\ sectors = 16) \/
  (data_size = 2048 /\ sectors = 32) \/ (data_size = 4096 /\ sectors = 40).
Proof.
  intros H.
  destruct (sectors_of_size_cases data_size)
    as [[? E]|[[? E]|[[? E]|[[? E]|(_ & _ & _ & _ & E)]]]];
    rewrite E in H; inversion H; subst; auto.
Qed.

Lemma sector_layout_standard (sector : Z) :
  0 <= sector < 32 ->
  sector_layout sector =
    {| blocks := 4; block_size := 16; sector_size := 64;
       sector_start := sector * 64 |}.
Proof.
  intros H. unfold sector_layout.
  destruct (Z.ltb_spec sector 32); [|lia].
  change (u32 (16 * 4)) with 64.
  unfold u32. rewrite Z.mod_small by lia. reflexivity.
Qed.

Lemma sector_layout_extended (sector : Z) :
  32 <= sector < 40 ->
  sector_layout sector =
    {| blocks := 16; block_size := 16; sector_size := 256;
       sector_start := 2048 + (sector - 32) * 256 |}.
Proof.
  intros H. unfold sector_layout.
  destruct (Z.ltb_spec sector 32); [lia|].
  change (u32 (16 * 16)) with 256.
  assert (forall x, 0 <= x < 2 ^ 32 -> u32 x = x) as Hid
    by (intros x Hx; apply Z.mod_small; exact Hx).
  rewrite (Hid (sector - 32)) by lia.
  rewrite (Hid ((sector - 32) * 256)) by lia.
  rewrite Hid by lia. reflexivity.
Qed.

(** C5. For a sector index [i] of a resolved geometry: below 32 the sector
    has 4 blocks of 16 bytes and starts at [i * 64]; from 32 on (which
    happens only for a size of 4096) it has 16 blocks of 16 bytes and starts
    at [2048 + (i - 32) * 256]; the block size is 16 in both cases. *)
Theorem C5_sector_layout (data_size sectors i : Z) :
  sectors_of_size data_size = Some sectors ->
  0 <= i < sectors ->
  let l := sector_layout i in
  block_size l = 16 /\
  (i < 32 ->
     blocks l = 4 /\ sector_size l = 64 /\ sector_start l = i * 64) /\
  (32 <= i ->
     data_size = 4096 /\ blocks l = 16 /\ sector_size l = 256 /\
     sector_start l = 2048 + (i - 32) * 256).
Proof.
  intros Hs Hi l.
  assert (sectors <= 40 /\ (32 <= i -> data_size = 4096)) as [Hle H4k].
  { destruct (sectors_of_size_Some _ _ Hs)
      as [[-> ->]|[[-> ->]|[[-> ->]|[-> ->]]]]; split; intros; lia. }
  destruct (Z_lt_dec i 32) as [Hlt|Hge].
  - subst l. rewrite sector_layout_standard by lia. cbn.
    repeat split; lia.
  - subst l. rewrite sector_layout_extended by lia. cbn.
    repeat split; try lia.
Qed.

Lemma C5_witness :
  sectors_of_size 4096 = Some 40 /\ 0 <= 33 < 40 /\
  block_size (sector_layout 33) = 16 /\
  (32 <= 33 ->
     4096 = 4096 /\ blocks (sector_layout 33) = 16 /\
     sector_size (sector_layout 33) = 256 /\
     sector_start (sector_layout 33) = 2048 + (33 - 32) * 256).
Proof.
  assert (sectors_of_size 4096 = Some 40) as H1 by reflexivity.
  assert (0 <= 33 < 40) as H2 by (cbv; split; [discriminate | reflexivity]).
  pose proof (C5_sector_layout 4096 40 33 H1 H2) as H.
  exact (conj H1 (conj H2 (conj (proj1 H) (proj2 (proj2 H))))).
Defined.

(** ** Loops *)

Section Loops.

Context {A : Type}.

Lemma for_upto_app (n1 n2 : nat) (i : Z) (body : Z -> list A) :
  for_upto (n1 + n2) i body
  = for_upto n1 i body ++ for_upto n2 (i + Z.of_nat n1) body.
Proof.
  revert i. induction n1 as [|n1 IH]; intros i.
  - cbn. rewrite Z.add_0_r. reflexivity.
  - cbn [Nat.add for_upto]. rewrite IH, <- app_assoc.
    do 3 f_equal. lia.
Qed.

Lemma for_upto_ext (body body' : Z -> list A) (n : nat) (i : Z) :
  (forall j, i <= j < i + Z.of_nat n -> body j = body' j) ->
  for_upto n i body = for_upto n i body'.
Proof.
  revert i. induction n as [|n IH]; intros i H; [reflexivity|].
  cbn [for_upto]. rewrite H by lia. f_equal.
  apply IH. intros j Hj. apply H. lia.
Qed.

(** A loop whose iterations each print [m] elements. *)
Lemma for_upto_length (m : nat) (body : Z -> list A) (n : nat) (i : Z) :
  (forall j, i <= j < i + Z.of_nat n -> List.length (body j) = m) ->
  List.length (for_upto n i body) = (n * m)%nat.
Proof.
  revert i. induction n as [|n IH]; intros i H; [reflexivity|].
  cbn [for_upto]. rewrite length_app, H by lia.
  rewrite IH by (intros j Hj; apply H; lia). reflexivity.
Qed.

Lemma for_upto_nth_error (m : nat) (body : Z -> list A) (n : nat) (i : Z) :
  (forall j, i <= j < i + Z.of_nat n -> List.length (body j) = m) ->
  forall k b : nat, (k < n)%nat -> (b < m)%nat ->
  nth_error (for_upto n i body) (k * m + b)
  = nth_error (body (i + Z.of_nat k)) b.
Proof.
  revert i. induction n as [|n IH]; intros i H k b Hk Hb; [lia|].
  cbn [for_upto]. destruct k as [|k].
  - rewrite nth_error_app1 by (rewrite H by lia; cbn; lia).
    cbn. rewrite Z.add_0_r. reflexivity.
  - rewrite nth_error_app2 by (rewrite H by lia; cbn; lia).
    rewrite H by lia.
    replace (S k * m + b - m)%nat with (k * m + b)%nat by (cbn; lia).
    rewrite IH by (try (intros j Hj; apply H); lia).
    f_equal. f_equal. lia.
Qed.

(** A loop whose iterations each print one element. *)
Lemma for_upto_single (f : Z -> A) (n : nat) (i : Z) (k : nat) :
  (k < n)%nat ->
  nth_error (for_upto n i (fun j => [f j])) k = Some (f (i + Z.of_nat k)).
Proof.
  intros Hk.
  pose proof (for_upto_nth_error 1 (fun j => [f j]) n i
                (fun _ _ => eq_refl) k 0 Hk Nat.lt_0_1) as H.
  rewrite Nat.mul_1_r, Nat.add_0_r in H. exact H.
Qed.

End Loops.

Lemma rows_of_app (l1 l2 : list printed) :
  rows_of (l1 ++ l2) = rows_of l1 ++ rows_of l2.
Proof. apply flat_map_app. Qed.

Lemma rows_of_for_upto (body : Z -> list printed) (n : nat) (i : Z) :
  rows_of (for_upto n i body) = for_upto n i (fun j => rows_of (body j)).
Proof.
  revert i. induction n as [|n IH]; intros i; [reflexivity|].
  cbn [for_upto]. rewrite rows_of_app, IH. reflexivity.
Qed.

(** ** The report *)

Lemma rows_of_block_loop (pal : palette) (data : list byte) (sector : Z) :
  rows_of (block_loop pal data sector) = sector_rows pal data sector.
Proof. unfold block_loop. rewrite rows_of_for_upto. reflexivity. Qed.

Lemma rows_of_sector_loop (pal : palette) (data : list byte) (sectors : Z) :
  rows_of (sector_loop pal data sectors) = report_rows pal data sectors.
Proof.
  unfold sector_loop, report_rows. rewrite rows_of_for_upto.
  apply for_upto_ext. intros j _.
  change (Rule :: block_loop pal data j)
    with ([Rule] ++ block_loop pal data j).
  rewrite rows_of_app. apply rows_of_block_loop.
Qed.

Lemma print_info_accepts (o : options) (file : list byte) (sectors : Z) :
  sectors_of_size (data_size_of o file) = Some sectors ->
  exit_code (print_info o file) = 0 /\
  err (print_info o file) = [] /\
  hd_error (out (print_info o file))
  = Some (FileSize (data_size_of o file) sectors) /\
  rows_of (out (print_info o file))
  = report_rows (colors o) (data_of file) sectors.
Proof.
  unfold print_info, data_size_of, data_of.
  destruct (fread_data file) as [data n]. cbn [fst snd].
  intros ->. cbn [exit_code err out].
  repeat split.
  rewrite !rows_of_app, rows_of_sector_loop. cbn.
  apply app_nil_r.
Qed.

Lemma print_info_rejects (o : options) (file : list byte) :
  sectors_of_size (data_size_of o file) = None ->
  print_info o file =
    {| exit_code := EXIT_FAILURE; out := [];
       err := [wrong_size_message (data_size_of o file)] |}.
Proof.
  unfold print_info, data_size_of.
  destruct (fread_data file) as [data n]. cbn [snd].
  intros ->. reflexivity.
Qed.

Lemma sector_rows_length (pal : palette) (data : list byte) (sector : Z) :
  List.length (sector_rows pal data sector)
  = Z.to_nat (blocks (sector_layout sector)).
Proof.
  unfold sector_rows.
  rewrite (for_upto_length 1) by reflexivity. apply Nat.mul_1_r.
Qed.

Lemma sector_rows_nth (pal : palette) (data : list byte) (sector block : Z) :
  0 <= block < blocks (sector_layout sector) ->
  nth_error (sector_rows pal data sector) (Z.to_nat block)
  = Some (block_row pal data sector block).
Proof.
  intros H. unfold sector_rows.
  rewrite for_upto_single by lia.
  f_equal. f_equal. lia.
Qed.

Lemma blocks_of_sector (sector : Z) :
  blocks (sector_layout sector) = if sector <? 32 then 4 else 16.
Proof. unfold sector_layout. destruct (sector <? 32); reflexivity. Qed.

Lemma report_rows_split (pal : palette) (data : list byte) (sectors : Z) :
  report_rows pal data sectors
  = for_upto (Z.to_nat (Z.min sectors 32)) 0 (sector_rows pal data)
    ++ for_upto (Z.to_nat (sectors - 32)) 32 (sector_rows pal data).
Proof.
  unfold report_rows.
  destruct (Z_le_dec sectors 32) as [Hle|Hgt].
  - rewrite Z.min_l by lia.
    replace (Z.to_nat (sectors - 32)) with 0%nat by lia.
    cbn [for_upto]. symmetry. apply app_nil_r.
  - rewrite Z.min_r by lia.
    replace (Z.to_nat sectors)
      with (Z.to_nat 32 + Z.to_nat (sectors - 32))%nat by lia.
    rewrite for_upto_app. reflexivity.
Qed.

Lemma standard_part_length (pal : palette) (data : list byte) (n : nat) :
  (n <= 32)%nat ->
  forall j, 0 <= j < 0 + Z.of_nat n ->
  List.length (sector_rows pal data j) = 4%nat.
Proof.
  intros Hn j Hj. rewrite sector_rows_length, blocks_of_sector.
  destruct (Z.ltb_spec j 32); [reflexivity | lia].
Qed.

Lemma extended_part_length (pal : palette) (data : list byte) (n : nat) :
  forall j, 32 <= j < 32 + Z.of_nat n ->
  List.length (sector_rows pal data j) = 16%nat.
Proof.
  intros j Hj. rewrite sector_rows_length, blocks_of_sector.
  destruct (Z.ltb_spec j 32); [lia | reflexivity].
Qed.

Lemma report_rows_length (pal : palette) (data : list byte) (sectors : Z) :
  Z.of_nat (List.length (report_rows pal data sectors))
  = 4 * Z.max 0 (Z.min sectors 32) + 16 * Z.max 0 (sectors - 32).
Proof.
  rewrite report_rows_split, length_app.
  rewrite (for_upto_length 4) by (apply standard_part_length; lia).
  rewrite (for_upto_length 16) by apply extended_part_length.
  lia.
Qed.

Lemma report_rows_nth (pal : palette) (data : list byte)
    (sectors sector block : Z) :
  0 <= sector < sectors ->
  0 <= block < blocks (sector_layout sector) ->
  nth_error (report_rows pal data sectors) (row_index sector block)
  = Some (block_row pal data sector block).
Proof.
  intros Hs Hb. rewrite report_rows_split. unfold row_index.
  rewrite blocks_of_sector in Hb.
  pose proof (standard_part_length pal data (Z.to_nat (Z.min sectors 32)))
    as Hstd.
  pose proof (extended_part_length pal data (Z.to_nat (sectors - 32)))
    as Hext.
  destruct (Z.ltb_spec sector 32) as [Hlt|Hge].
  - rewrite nth_error_app1
      by (rewrite (for_upto_length 4) by (apply Hstd; lia); lia).
    replace (Z.to_nat (sector * 4 + block))
      with (Z.to_nat sector * 4 + Z.to_nat block)%nat by lia.
    rewrite (for_upto_nth_error 4) by (try apply Hstd; lia).
    replace (0 + Z.of_nat (Z.to_nat sector)) with sector by lia.
    apply sector_rows_nth. rewrite blocks_of_sector.
    destruct (Z.ltb_spec sector 32); lia.
  - rewrite nth_error_app2
      by (rewrite (for_upto_length 4) by (apply Hstd; lia); lia).
    rewrite (for_upto_length 4) by (apply Hstd; lia).
    replace (Z.to_nat (32 * 4 + (sector - 32) * 16 + block)
             - Z.to_nat (Z.min sectors 32) * 4)%nat
      with (Z.to_nat (sector - 32) * 16 + Z.to_nat block)%nat by lia.
    rewrite (for_upto_nth_error 16) by (try apply Hext; lia).
    replace (32 + Z.of_nat (Z.to_nat (sector - 32))) with sector by lia.
    apply sector_rows_nth. rewrite blocks_of_sector.
    destruct (Z.ltb_spec sector 32); lia.
Qed.

Lemma data_size_read (file : list byte) :
  snd (fread_data file) = Z.of_nat (Nat.min (List.length file) 4097).
Proof.
  unfold fread_data, data_capacity. cbn [snd].
  rewrite length_firstn, Nat.min_comm. reflexivity.
Qed.

(** The buffer always has its 4097 bytes, so every read of [print_info]
    (the last one is byte 4095, in sector 39) stays inside it. *)
Lemma data_of_length (file : list byte) :
  List.length (data_of file) = 4097%nat.
Proof.
  unfold data_of, fread_data, data_capacity. cbn [fst].
  rewrite length_app, repeat_length, length_firstn. lia.
Qed.

Lemma access_columns_invalid (pal : palette) (l : layout) (sector block : Z) :
  access_columns pal l sector block (-1)
  = ((color_warning pal ++ "ERR" ++ color_default pal)%string, empty_string).
Proof. reflexivity. Qed.

Lemma access_columns_valid (pal : palette) (l : layout)
    (sector block c : Z) :
  0 <= c <= 7 ->
  access_columns pal l sector block c
  = ((color_access pal ++ entry bit_rep c ++ color_default pal)%string,
     if (block =? 0) && (sector =? 0) then "-"%string
     else if block =? u32 (blocks l - 1) then entry permission_trailer c
     else entry permission_data c).
Proof.
  intros Hc. unfold access_columns.
  destruct (Z.ltb_spec c 0); [lia|].
  destruct (Z.gtb_spec c 7); [lia|]. cbn [orb].
  destruct ((block =? 0) && (sector =? 0)); [reflexivity|].
  destruct (block =? u32 (blocks l - 1)); reflexivity.
Qed.

Lemma small_condition (c : Z) :
  0 <= c <= 7 ->
  c = 0 \/ c = 1 \/ c = 2 \/ c = 3 \/ c = 4 \/ c = 5 \/ c = 6 \/ c = 7.
Proof. lia. Qed.

(** The error marker is not the text of any of the eight conditions. *)
Lemma marker_is_distinct (o : options) (c : Z) :
  0 <= c <= 7 ->
  (color_access (colors o) ++ entry bit_rep c ++ color_default (colors o))%string
  <> (color_warning (colors o) ++ "ERR" ++ color_default (colors o))%string.
Proof.
  intros Hc. unfold colors.
  destruct (small_condition c Hc)
    as [-> | [-> | [-> | [-> | [-> | [-> | [-> | ->]]]]]]];
    destruct (colored o); vm_compute; discriminate.
Qed.

(** No permission text of a decoded condition is empty. *)
Lemma permission_text_not_empty (l : layout) (sector block c : Z) :
  0 <= c <= 7 ->
  (if (block =? 0) && (sector =? 0) then "-"%string
   else if block =? u32 (blocks l - 1) then entry permission_trailer c
   else entry permission_data c) <> empty_string.
Proof.
  intros Hc.
  destruct ((block =? 0) && (sector =? 0)); [discriminate|].
  destruct (small_condition c Hc)
    as [-> | [-> | [-> | [-> | [-> | [-> | [-> | ->]]]]]]];
    destruct (block =? u32 (blocks l - 1)); vm_compute; discriminate.
Qed.

Lemma trailer_block_index (sector : Z) :
  u32 (blocks (sector_layout sector) - 1)
  = blocks (sector_layout sector) - 1.
Proof.
  rewrite blocks_of_sector. destruct (sector <? 32); reflexivity.
Qed.

(** The row [print_info] prints for a block of an accepted dump. *)
Lemma print_info_row (o : options) (file : list byte)
    (sectors sector block : Z) :
  sectors_of_size (data_size_of o file) = Some sectors ->
  0 <= sector < sectors ->
  0 <= block < blocks (sector_layout sector) ->
  nth_error (rows_of (out (print_info o file))) (row_index sector block)
  = Some (block_row (colors o) (data_of file) sector block).
Proof.
  intros Hs Hsec Hb.
  destruct (print_info_accepts o file sectors Hs) as (_ & _ & _ & ->).
  apply report_rows_nth; assumption.
Qed.

(** ** Each row depends on the bytes of its own sector only *)

Lemma rd_at_offset (data : list byte) (off : Z) (i : nat) :
  rd (at_offset data off) i = rd data (Z.to_nat off + i).
Proof. unfold rd, at_offset. rewrite nth_skipn. reflexivity. Qed.

Lemma rd_data_of (file : list byte) (i : nat) :
  (i < 4097)%nat -> rd (data_of file) i = rd file i.
Proof.
  intros Hi. unfold rd, data_of, fread_data, data_capacity. cbn [fst].
  f_equal.
  destruct (Nat.lt_ge_cases i (List.length (firstn 4097 file))) as [Hlt|Hge].
  - rewrite app_nth1 by exact Hlt. rewrite nth_firstn.
    destruct (Nat.ltb_spec i 4097); [reflexivity | lia].
  - rewrite app_nth2 by exact Hge. rewrite nth_repeat.
    rewrite length_firstn in Hge.
    symmetry. apply nth_overflow. lia.
Qed.

Lemma hex_run_ext (p p' : list byte) (n : nat) :
  (forall i, (i < n)%nat -> rd p i = rd p' i) ->
  hex_run p n = hex_run p' n.
Proof.
  intros H. unfold hex_run. f_equal.
  apply map_ext_in. intros i Hi. apply in_seq in Hi.
  rewrite H by lia. reflexivity.
Qed.

Lemma get_access_condition_ext (ab ab' : list byte) (sector block : Z) :
  (forall i, (i < 3)%nat -> rd ab i = rd ab' i) ->
  get_access_condition sector block ab
  = get_access_condition sector block ab'.
Proof.
  intros H. unfold get_access_condition, slot_bits.
  rewrite (H 0%nat), (H 1%nat), (H 2%nat) by lia. reflexivity.
Qed.

Lemma layout_facts (sector : Z) :
  0 <= sector < 40 ->
  let l := sector_layout sector in
  0 <= sector_start l /\
  sector_start l + sector_size l <= 4096 /\
  sector_size l = 16 * blocks l /\
  block_size l = 16 /\
  1 <= blocks l <= 16.
Proof.
  intros H l. subst l.
  destruct (Z_lt_dec sector 32).
  - rewrite sector_layout_standard by lia.
    cbn [blocks block_size sector_size sector_start]. lia.
  - rewrite sector_layout_extended by lia.
    cbn [blocks block_size sector_size sector_start]. lia.
Qed.

Lemma trailer_field_value (sector field : Z) :
  0 <= sector < 40 -> 0 <= field < 16 ->
  let l := sector_layout sector in
  trailer_field l field = sector_start l + sector_size l - 16 + field.
Proof.
  intros Hs Hf l.
  destruct (layout_facts sector Hs) as (H0 & H1 & H2 & H3 & H4). fold l in H0, H1, H2, H3, H4.
  unfold trailer_field. rewrite H3.
  assert (forall x, 0 <= x < 2 ^ 32 -> u32 x = x) as Hid
    by (intros x Hx; apply Z.mod_small; exact Hx).
  rewrite (Hid (sector_start l + sector_size l)) by lia.
  rewrite (Hid (sector_start l + sector_size l - 16)) by lia.
  apply Hid. lia.
Qed.

Lemma block_row_local (pal : palette) (data data' : list byte)
    (sector block : Z) :
  0 <= sector < 40 ->
  0 <= block < blocks (sector_layout sector) ->
  (forall i : nat,
     sector_start (sector_layout sector) <= Z.of_nat i
       < sector_start (sector_layout sector)
         + sector_size (sector_layout sector) ->
     rd data i = rd data' i) ->
  block_row pal data sector block = block_row pal data' sector block.
Proof.
  intros Hs Hb Hagree.
  destruct (layout_facts sector Hs) as (H0 & H1 & H2 & H3 & H4).
  cbv zeta in H0, H1, H2, H3, H4.
  assert (forall x, 0 <= x < 2 ^ 32 -> u32 x = x) as Hid
    by (intros x Hx; apply Z.mod_small; exact Hx).
  assert (forall field (n : nat),
            0 <= field -> field + Z.of_nat n <= 16 ->
            forall i, (i < n)%nat ->
            rd (at_offset data (trailer_field (sector_layout sector) field)) i
            = rd (at_offset data'
                    (trailer_field (sector_layout sector) field)) i)
    as Htrailer.
  { intros field n Hf Hn i Hi.
    rewrite !rd_at_offset, trailer_field_value by lia.
    apply Hagree. lia. }
  unfold block_row.
  assert (get_access_condition sector block
            (access_bits_of data (sector_layout sector))
          = get_access_condition sector block
              (access_bits_of data' (sector_layout sector))) as ->.
  { apply get_access_condition_ext. unfold access_bits_of.
    apply (Htrailer 6 3%nat); lia. }
  f_equal.
  unfold data_hex.
  destruct (block =? u32 (blocks (sector_layout sector) - 1)).
  - unfold keyA_of, access_bits_of, keyB_of.
    rewrite (hex_run_ext _ _ 6 (Htrailer 0 6%nat ltac:(lia) ltac:(lia))).
    rewrite (hex_run_ext _ _ 4 (Htrailer 6 4%nat ltac:(lia) ltac:(lia))).
    rewrite (hex_run_ext _ _ 6 (Htrailer 10 6%nat ltac:(lia) ltac:(lia))).
    reflexivity.
  - rewrite H3. apply hex_run_ext. intros i Hi.
    rewrite !rd_at_offset.
    rewrite (Hid (block * 16)) by lia.
    rewrite Hid by lia.
    apply Hagree. lia.
Qed.

(** C3. Without the force flag the size that was read decides the
    geometry: 320 gives 5 sectors, 1024 gives 16, 2048 gives 32 and 4096
    gives 40 (32 of four blocks and 8 of sixteen); any other size makes
    [print_info] fail without printing a row, with a message on [stderr]
    that carries the size and the four allowed sizes. *)
Theorem C3_geometry_by_length (c : bool) (file : list byte) :
  let o := {| force_1k := false; colored := c |} in
  let n := Z.of_nat (Nat.min (List.length file) 4097) in
  let r := print_info o file in
  let accepted (sectors rows : Z) :=
    sectors_of_size n = Some sectors /\
    exit_code r = 0 /\ err r = [] /\
    hd_error (out r) = Some (FileSize n sectors) /\
    Z.of_nat (List.length (rows_of (out r))) = rows in
  (n = 320 -> accepted 5 (5 * 4)) /\
  (n = 1024 -> accepted 16 (16 * 4)) /\
  (n = 2048 -> accepted 32 (32 * 4)) /\
  (n = 4096 -> accepted 40 (32 * 4 + 8 * 16)) /\
  (n <> 320 -> n <> 1024 -> n <> 2048 -> n <> 4096 ->
   sectors_of_size n = None /\
   exit_code r = EXIT_FAILURE /\ out r = [] /\
   err r = [("Wrong file size: " ++ dec n ++ " bytes." ++ NL ++
             "Only 320, 1024, 2048 or 4096 bytes is allowed.")%string]).
Proof.
  intros o n r accepted.
  assert (data_size_of o file = n) as Hn
    by (unfold data_size_of; cbn; apply data_size_read).
  assert (forall s rows,
            sectors_of_size n = Some s ->
            4 * Z.max 0 (Z.min s 32) + 16 * Z.max 0 (s - 32) = rows ->
            accepted s rows) as Hacc.
  { intros s rows Hs Hrows. unfold accepted, r.
    rewrite <- Hn in Hs |- *.
    destruct (print_info_accepts o file s Hs) as (He & Herr & Hhd & Hrs).
    rewrite Hrs, report_rows_length. auto. }
  split; [|split; [|split; [|split]]].
  1-4: intros Heq; apply Hacc; [rewrite Heq|]; reflexivity.
  intros H1 H2 H3 H4.
  destruct (sectors_of_size_cases n)
    as [[? _]|[[? _]|[[? _]|[[? _]|(_ & _ & _ & _ & E)]]]];
    try contradiction.
  split; [exact E|].
  unfold r. rewrite print_info_rejects by (rewrite Hn; exact E).
  rewrite Hn. repeat split.
Qed.

Lemma C3_witness :
  let o := {| force_1k := false; colored := true |} in
  let short := [x01; x02; x03] in
  Z.of_nat (Nat.min (List.length short) 4097) <> 320 /\
  Z.of_nat (Nat.min (List.length short) 4097) <> 1024 /\
  Z.of_nat (Nat.min (List.length short) 4097) <> 2048 /\
  Z.of_nat (Nat.min (List.length short) 4097) <> 4096 /\
  exit_code (print_info o short) = EXIT_FAILURE /\
  out (print_info o short) = [] /\
  err (print_info o short)
  = [("Wrong file size: 3 bytes." ++ NL ++
      "Only 320, 1024, 2048 or 4096 bytes is allowed.")%string].
Proof.
  intros o short.
  assert (Z.of_nat (Nat.min (List.length short) 4097) <> 320) as H1
    by (vm_compute; discriminate).
  assert (Z.of_nat (Nat.min (List.length short) 4097) <> 1024) as H2
    by (vm_compute; discriminate).
  assert (Z.of_nat (Nat.min (List.length short) 4097) <> 2048) as H3
    by (vm_compute; discriminate).
  assert (Z.of_nat (Nat.min (List.length short) 4097) <> 4096) as H4
    by (vm_compute; discriminate).
  exact (conj H1 (conj H2 (conj H3 (conj H4
    (proj2 (proj2 (proj2 (proj2 (proj2
       (C3_geometry_by_length true short)))) H1 H2 H3 H4)))))).
Defined.

(** C7. In an accepted dump a block whose decode fails does not stop the
    report: [print_info] returns 0 and prints the row of every block of
    every sector; the row of a block whose decode gives -1 has the marker
    ERR in its access column and an empty permission text, and the row of
    any block whose decode succeeds has the three digits of its own
    condition there, which is not the marker, and a permission text.  The
    row of a block is the same in every dump of that length that has the
    same bytes in the block's sector, whatever the other sectors hold. *)
Theorem C7_checksum_mismatch_is_local
    (o : options) (file : list byte) (sectors sector block : Z) :
  sectors_of_size (data_size_of o file) = Some sectors ->
  0 <= sector < sectors ->
  0 <= block < blocks (sector_layout sector) ->
  let r := print_info o file in
  let pal := colors o in
  let marker := (color_warning pal ++ "ERR" ++ color_default pal)%string in
  let c :=
    get_access_condition sector block
      (access_bits_of (data_of file) (sector_layout sector)) in
  exit_code r = 0 /\
  Z.of_nat (List.length (rows_of (out r)))
  = 4 * Z.min sectors 32 + 16 * Z.max 0 (sectors - 32) /\
  exists row,
    nth_error (rows_of (out r)) (row_index sector block) = Some row /\
    row_block row = block /\
    (c = -1 ->
       str_access_bits row = marker /\ str_permissions row = empty_string) /\
    (c <> -1 ->
       0 <= c <= 7 /\
       str_access_bits row
       = (color_access pal ++ entry bit_rep c ++ color_default pal)%string /\
       str_access_bits row <> marker /\
       str_permissions row <> empty_string) /\
    (forall file' : list byte,
       List.length file' = List.length file ->
       (forall i : nat,
          sector_start (sector_layout sector) <= Z.of_nat i
            < sector_start (sector_layout sector)
              + sector_size (sector_layout sector) ->
          nth i file' x00 = nth i file x00) ->
       nth_error (rows_of (out (print_info o file'))) (row_index sector block)
       = Some row).
Proof.
  intros Hs Hsec Hb r pal marker c.
  destruct (print_info_accepts o file sectors Hs) as (He & _ & _ & Hrs).
  split; [exact He|]. split.
  { unfold r. rewrite Hrs, report_rows_length.
    destruct (sectors_of_size_Some _ _ Hs)
      as [[_ ->]|[[_ ->]|[[_ ->]|[_ ->]]]]; reflexivity. }
  exists (block_row pal (data_of file) sector block).
  split; [apply (print_info_row o file sectors); assumption|].
  split; [reflexivity|].
  split; [|split].
  - unfold block_row. cbn [str_access_bits str_permissions]. fold c.
    intros ->. rewrite access_columns_invalid. split; reflexivity.
  - unfold block_row. cbn [str_access_bits str_permissions]. fold c.
    intros Hc.
    pose proof (get_access_condition_range
                  (access_bits_of (data_of file) (sector_layout sector))
                  sector block) as Hrg.
    fold c in Hrg.
    assert (0 <= c <= 7) as Hr by lia.
    rewrite access_columns_valid by exact Hr. cbn [fst snd].
    repeat split; try lia.
    + apply marker_is_distinct. exact Hr.
    + apply permission_text_not_empty. exact Hr.
  - intros file' Hlen Hsame.
    assert (sector < 40) as H40
      by (destruct (sectors_of_size_Some _ _ Hs)
            as [[_ ->]|[[_ ->]|[[_ ->]|[_ ->]]]]; lia).
    assert (data_size_of o file' = data_size_of o file) as Hsize
      by (unfold data_size_of; rewrite !data_size_read, Hlen; reflexivity).
    rewrite (print_info_row o file' sectors)
      by (rewrite ?Hsize; assumption).
    f_equal. apply block_row_local; try assumption; try lia.
    intros i Hi.
    destruct (layout_facts sector (conj (proj1 Hsec) H40)) as (_ & Hend & _).
    cbv zeta in Hend.
    rewrite !rd_data_of by lia.
    unfold rd. rewrite Hsame by exact Hi. reflexivity.
Qed.

Lemma C7_witness :
  let o := {| force_1k := false; colored := false |} in
  sectors_of_size (data_size_of o sample_dump) = Some 5 /\
  0 <= 2 < 5 /\
  0 <= 0 < blocks (sector_layout 2) /\
  get_access_condition 2 0
    (access_bits_of (data_of sample_dump) (sector_layout 2)) = -1 /\
  exit_code (print_info o sample_dump) = 0 /\
  Z.of_nat (List.length (rows_of (out (print_info o sample_dump))))
  = 4 * Z.min 5 32 + 16 * Z.max 0 (5 - 32) /\
  exists row,
    nth_error (rows_of (out (print_info o sample_dump))) (row_index 2 0)
    = Some row /\
    str_access_bits row = "ERR"%string /\
    str_permissions row = empty_string.
Proof.
  intros o.
  assert (sectors_of_size (data_size_of o sample_dump) = Some 5) as H1
    by (vm_compute; reflexivity).
  assert (0 <= 2 < 5) as H2 by (cbv; split; [discriminate | reflexivity]).
  assert (0 <= 0 < blocks (sector_layout 2)) as H3
    by (cbv; split; [discriminate | reflexivity]).
  assert (get_access_condition 2 0
            (access_bits_of (data_of sample_dump) (sector_layout 2)) = -1)
    as H4 by (vm_compute; reflexivity).
  destruct (C7_checksum_mismatch_is_local o sample_dump 5 2 0 H1 H2 H3)
    as (He & Hlen & row & Hrow & _ & Hfail & _ & _).
  refine (conj H1 (conj H2 (conj H3 (conj H4 (conj He (conj Hlen _)))))).
  exists row. split; [exact Hrow|]. exact (Hfail H4).
Defined.

(** C8. In an accepted dump, when the condition [c] of a block decodes to
    a value in 0..7, its row shows the three binary digits of [c]; the
    permission text is the fixed text - for block 0 of sector 0, whatever
    [c] is, entry [c] of the trailer table for the last block of any
    sector, and entry [c] of the data table for every other block. *)
Theorem C8_permission_text_by_role
    (o : options) (file : list byte) (sectors sector block : Z) :
  sectors_of_size (data_size_of o file) = Some sectors ->
  0 <= sector < sectors ->
  0 <= block < blocks (sector_layout sector) ->
  let pal := colors o in
  let last := blocks (sector_layout sector) - 1 in
  let c :=
    get_access_condition sector block
      (access_bits_of (data_of file) (sector_layout sector)) in
  0 <= c <= 7 ->
  exists row,
    nth_error (rows_of (out (print_info o file))) (row_index sector block)
    = Some row /\
    str_access_bits row
    = (color_access pal ++ nth (Z.to_nat c) bit_rep "" ++
       color_default pal)%string /\
    (sector = 0 /\ block = 0 -> str_permissions row = "-"%string) /\
    (~ (sector = 0 /\ block = 0) -> block = last ->
       str_permissions row = nth (Z.to_nat c) permission_trailer ""%string) /\
    (~ (sector = 0 /\ block = 0) -> block <> last ->
       str_permissions row = nth (Z.to_nat c) permission_data ""%string).
Proof.
  intros Hs Hsec Hb pal last c Hc.
  exists (block_row pal (data_of file) sector block).
  split; [apply (print_info_row o file sectors); assumption|].
  unfold block_row. cbn [str_access_bits str_permissions]. fold c.
  rewrite access_columns_valid by exact Hc. cbn [fst snd].
  rewrite trailer_block_index. fold last.
  split; [reflexivity|].
  split; [|split].
  - intros [-> ->]. reflexivity.
  - intros Hm Hl.
    destruct (Z.eqb_spec block 0) as [Hb0|Hb0];
      destruct (Z.eqb_spec sector 0) as [Hs0|Hs0]; cbn [andb];
      try (exfalso; apply Hm; split; assumption);
      destruct (Z.eqb_spec block last); try contradiction; reflexivity.
  - intros Hm Hl.
    destruct (Z.eqb_spec block 0) as [Hb0|Hb0];
      destruct (Z.eqb_spec sector 0) as [Hs0|Hs0]; cbn [andb];
      try (exfalso; apply Hm; split; assumption);
      destruct (Z.eqb_spec block last); try contradiction; reflexivity.
Qed.

Lemma C8_witness :
  let o := {| force_1k := false; colored := false |} in
  sectors_of_size (data_size_of o sample_dump) = Some 5 /\
  0 <= 0 < 5 /\
  0 <= 0 < blocks (sector_layout 0) /\
  get_access_condition 0 0
    (access_bits_of (data_of sample_dump) (sector_layout 0)) = 0 /\
  exists row,
    nth_error (rows_of (out (print_info o sample_dump))) (row_index 0 0)
    = Some row /\
    str_access_bits row = "000"%string /\
    str_permissions row = "-"%string.
Proof.
  intros o.
  assert (sectors_of_size (data_size_of o sample_dump) = Some 5) as H1
    by (vm_compute; reflexivity).
  assert (0 <= 0 < 5) as H2 by (cbv; split; [discriminate | reflexivity]).
  assert (0 <= 0 < blocks (sector_layout 0)) as H3
    by (cbv; split; [discriminate | reflexivity]).
  assert (get_access_condition 0 0
            (access_bits_of (data_of sample_dump) (sector_layout 0)) = 0)
    as H4 by (vm_compute; reflexivity).
  assert (0 <= get_access_condition 0 0
                 (access_bits_of (data_of sample_dump) (sector_layout 0))
          <= 7) as H5
    by (rewrite H4; cbv; split; discriminate).
  destruct (C8_permission_text_by_role o sample_dump 5 0 0 H1 H2 H3 H5)
    as (row & Hrow & Hacc & Hman & _).
  refine (conj H1 (conj H2 (conj H3 (conj H4 _)))).
  exists row. split; [exact Hrow|]. split.
  - rewrite Hacc, H4. reflexivity.
  - apply Hman. split; reflexivity.
Defined.

(** C9, as the code has it. With the force flag set [print_info] treats
    every input, however few bytes it supplies, as a dump of 1024 bytes in
    16 sectors of four blocks: it returns 0 and prints 64 rows, and the
    bytes the input did not supply are read as zero. *)
Theorem C9_forced_mode_accepts_any_input (c : bool) (file : list byte) :
  let o := {| force_1k := true; colored := c |} in
  let r := print_info o file in
  exit_code r = 0 /\ err r = [] /\
  hd_error (out r) = Some (FileSize 1024 16) /\
  List.length (rows_of (out r)) = 64%nat /\
  forall i : nat, (List.length file <= i)%nat -> rd (data_of file) i = 0.
Proof.
  intros o r.
  assert (sectors_of_size (data_size_of o file) = Some 16) as Hs
    by reflexivity.
  destruct (print_info_accepts o file 16 Hs) as (He & Herr & Hhd & Hrs).
  split; [exact He|]. split; [exact Herr|]. split; [exact Hhd|]. split.
  - unfold r. rewrite Hrs.
    apply Nat2Z.inj. rewrite report_rows_length. reflexivity.
  - intros i Hi. unfold rd, data_of, fread_data. cbn [fst].
    rewrite app_nth2 by (rewrite length_firstn; lia).
    rewrite nth_repeat. reflexivity.
Qed.

Lemma C9_witness :
  let o := {| force_1k := true; colored := false |} in
  let short := [x01; x02; x03] in
  (List.length short <= 7)%nat /\
  exit_code (print_info o short) = 0 /\
  List.length (rows_of (out (print_info o short))) = 64%nat /\
  rd (data_of short) 7 = 0.
Proof.
  intros o short.
  assert (List.length short <= 7)%nat as H by (cbn; lia).
  destruct (C9_forced_mode_accepts_any_input false short)
    as (He & _ & _ & Hlen & Hzero).
  exact (conj H (conj He (conj Hlen (Hzero 7%nat H)))).
Defined.

(** C9 as it is written fails: an empty input in forced mode is not
    rejected, it is reported as a dump of 1024 bytes. *)
Lemma C9_counterexample :
  let o := {| force_1k := true; colored := false |} in
  (List.length (@nil byte) < 1024)%nat /\
  exit_code (print_info o []) = 0 /\
  exit_code (print_info o []) <> EXIT_FAILURE /\
  hd_error (out (print_info o [])) = Some (FileSize 1024 16) /\
  List.length (rows_of (out (print_info o []))) = 64%nat.
Proof.
  cbv zeta. split; [cbn; lia|].
  vm_compute. repeat split. discriminate.
Qed.

(** * Further properties of the code *)

(** ** The redundancy check *)

(** X1. Flipping one bit of the first three access bytes of a sector
    breaks the check of the one slot that owns the bit (bit [i] belongs to
    slot [i mod 4]) if that slot decoded before, and leaves the result of
    the other three slots as it was. *)
Theorem X1_one_flipped_bit_breaks_one_slot
    (ab ab' : list byte) (n : nat) (i sector block : Z) :
  (n < 3)%nat -> 0 <= i < 8 ->
  (forall (m : nat) (j : Z), (m < 3)%nat -> 0 <= j < 8 ->
     Z.testbit (rd ab' m) j
     = xorb (Z.testbit (rd ab m) j) ((m =? n)%nat && (j =? i))) ->
  0 <= slot_index sector block <= 3 ->
  (slot_index sector block = i mod 4 ->
   get_access_condition sector block ab <> -1 ->
   get_access_condition sector block ab' = -1) /\
  (slot_index sector block <> i mod 4 ->
   get_access_condition sector block ab'
   = get_access_condition sector block ab).
Proof.
  intros Hn Hi Hflip Hk.
  rewrite !(get_access_condition_slot _ sector block Hk).
  set (k := slot_index sector block) in *.
  unfold C1, C2, C3, bit.
  rewrite (Hflip 0%nat k), (Hflip 0%nat (4 + k)), (Hflip 1%nat k),
    (Hflip 1%nat (4 + k)), (Hflip 2%nat k), (Hflip 2%nat (4 + k)) by lia.
  split.
  - intros Hslot.
    assert (i = k \/ i = 4 + k) as Hik.
    { pose proof (Z.div_mod i 4 ltac:(lia)).
      assert (i / 4 = 0 \/ i / 4 = 1)
        by (pose proof (Z.div_lt_upper_bound i 4 2 ltac:(lia) ltac:(lia));
            pose proof (Z.div_pos i 4 ltac:(lia) ltac:(lia)); lia).
      lia. }
    assert (n = 0 \/ n = 1 \/ n = 2)%nat as [-> | [-> | ->]] by lia;
      destruct Hik as [-> | ->];
      repeat match goal with
      | |- context [?a =? ?b] =>
          first [ replace (a =? b) with true by (symmetry; apply Z.eqb_eq; lia)
                | replace (a =? b) with false
                    by (symmetry; apply Z.eqb_neq; lia) ]
      end;
      cbn [Nat.eqb andb];
      destruct (Z.testbit (rd ab 0) k), (Z.testbit (rd ab 0) (4 + k)),
        (Z.testbit (rd ab 1) k), (Z.testbit (rd ab 1) (4 + k)),
        (Z.testbit (rd ab 2) k), (Z.testbit (rd ab 2) (4 + k));
      cbn; intros H; try reflexivity; now elim H.
  - intros Hslot.
    assert (k <> i /\ 4 + k <> i) as [H1 H2].
    { split; intros <-; apply Hslot.
      - symmetry. apply Z.mod_small. lia.
      - replace (4 + k) with (k + 1 * 4) by lia.
        rewrite Z.mod_add by lia. symmetry. apply Z.mod_small. lia. }
    apply Z.eqb_neq in H1, H2. rewrite H1, H2.
    rewrite !Bool.andb_false_r, !Bool.xorb_false_r. reflexivity.
Qed.

Lemma X1_witness :
  let ab := transport_bytes in
  let ab' := [xff; x07; x81; x00] in
  slot_index 0 0 = 0 mod 4 /\
  get_access_condition 0 0 ab <> -1 /\
  get_access_condition 0 0 ab' = -1.
Proof.
  intros ab ab'.
  assert (2 < 3)%nat as Hn by lia.
  assert (0 <= 0 < 8) as Hi by lia.
  assert (forall (m : nat) (j : Z), (m < 3)%nat -> 0 <= j < 8 ->
            Z.testbit (rd ab' m) j
            = xorb (Z.testbit (rd ab m) j) ((m =? 2)%nat && (j =? 0)))
    as Hflip.
  { intros m j Hm Hj.
    assert (m = 0 \/ m = 1 \/ m = 2)%nat as [-> | [-> | ->]] by lia;
      assert (j = 0 \/ j = 1 \/ j = 2 \/ j = 3 \/ j = 4 \/ j = 5 \/ j = 6
              \/ j = 7)
        as [-> | [-> | [-> | [-> | [-> | [-> | [-> | ->]]]]]]] by lia;
      reflexivity. }
  assert (0 <= slot_index 0 0 <= 3) as Hk by (cbv; split; discriminate).
  assert (slot_index 0 0 = 0 mod 4) as Hs by reflexivity.
  assert (get_access_condition 0 0 ab <> -1) as Hok by (cbv; discriminate).
  exact (conj Hs (conj Hok
    (proj1 (X1_one_flipped_bit_breaks_one_slot ab ab' 2 0 0 0
              Hn Hi Hflip Hk) Hs Hok))).
Defined.

Lemma get_access_condition_three_bytes
    (b0 b1 b2 b3 b3' : byte) (sector block : Z) :
  get_access_condition sector block [b0; b1; b2; b3]
  = get_access_condition sector block [b0; b1; b2; b3'].
Proof.
  apply get_access_condition_ext. intros i Hi.
  destruct i as [|[|[|i]]]; try reflexivity; lia.
Qed.

Lemma all_conditions_encodable :
  forallb (fun c0 => forallb (fun c1 => forallb (fun c2 => forallb (fun c3 =>
    let ab := access_bytes_for c0 c1 c2 c3 in
    (get_access_condition 0 0 ab =? c0) && (get_access_condition 0 1 ab =? c1)
    && (get_access_condition 0 2 ab =? c2)
    && (get_access_condition 0 3 ab =? c3))
    conditions) conditions) conditions) conditions = true.
Proof. vm_compute. reflexivity. Qed.

Lemma in_conditions (c : Z) : 0 <= c <= 7 -> In c conditions.
Proof.
  intros H.
  destruct (small_condition c H)
    as [-> | [-> | [-> | [-> | [-> | [-> | [-> | ->]]]]]]]; cbn; tauto.
Qed.

(** X2. Every choice of four conditions in 0..7 is the decoding of some
    access bytes: there are three bytes which, with any fourth byte, decode
    to [c0], [c1], [c2], [c3] in slots 0 to 3. *)
Theorem X2_every_four_conditions_decode_from_some_bytes (c0 c1 c2 c3 : Z) :
  0 <= c0 <= 7 -> 0 <= c1 <= 7 -> 0 <= c2 <= 7 -> 0 <= c3 <= 7 ->
  exists b0 b1 b2 : byte, forall b3 : byte,
    get_access_condition 0 0 [b0; b1; b2; b3] = c0 /\
    get_access_condition 0 1 [b0; b1; b2; b3] = c1 /\
    get_access_condition 0 2 [b0; b1; b2; b3] = c2 /\
    get_access_condition 0 3 [b0; b1; b2; b3] = c3.
Proof.
  intros H0 H1 H2 H3.
  pose proof all_conditions_encodable as H.
  rewrite forallb_forall in H. specialize (H c0 (in_conditions c0 H0)).
  rewrite forallb_forall in H. specialize (H c1 (in_conditions c1 H1)).
  rewrite forallb_forall in H. specialize (H c2 (in_conditions c2 H2)).
  rewrite forallb_forall in H. specialize (H c3 (in_conditions c3 H3)).
  cbv zeta in H. rewrite !Bool.andb_true_iff, !Z.eqb_eq in H.
  destruct H as [[[E0 E1] E2] E3].
  remember (access_bytes_for c0 c1 c2 c3) as ab eqn:Eab.
  unfold access_bytes_for in Eab. cbv zeta in Eab.
  match type of Eab with
  | ab = [?x0; ?x1; ?x2; _] => exists x0, x1, x2
  end.
  intros b3.
  rewrite !(get_access_condition_three_bytes _ _ _ b3 x00).
  rewrite <- Eab. auto.
Qed.

Lemma X2_witness :
  0 <= 4 <= 7 /\ 0 <= 6 <= 7 /\ 0 <= 0 <= 7 /\ 0 <= 3 <= 7 /\
  exists b0 b1 b2 : byte, forall b3 : byte,
    get_access_condition 0 0 [b0; b1; b2; b3] = 4 /\
    get_access_condition 0 1 [b0; b1; b2; b3] = 6 /\
    get_access_condition 0 2 [b0; b1; b2; b3] = 0 /\
    get_access_condition 0 3 [b0; b1; b2; b3] = 3.
Proof.
  assert (0 <= 4 <= 7) as H0 by lia.
  assert (0 <= 6 <= 7) as H1 by lia.
  assert (0 <= 0 <= 7) as H2 by lia.
  assert (0 <= 3 <= 7) as H3 by lia.
  exact (conj H0 (conj H1 (conj H2 (conj H3
    (X2_every_four_conditions_decode_from_some_bytes 4 6 0 3 H0 H1 H2 H3))))).
Defined.

Lemma byte_val_range (b : byte) : 0 <= byte_val b < 256.
Proof. unfold byte_val. pose proof (Byte.to_N_bounded b). lia. Qed.

Lemma byte_val_inj (b b' : byte) : byte_val b = byte_val b' -> b = b'.
Proof.
  unfold byte_val. intros H. apply N2Z.inj in H.
  pose proof (Byte.of_to_N b) as E. rewrite H, Byte.of_to_N in E.
  congruence.
Qed.

Lemma byte_high_bits (b : byte) (j : Z) :
  8 <= j -> Z.testbit (byte_val b) j = false.
Proof.
  intros Hj. pose proof (byte_val_range b) as Hr.
  rewrite <- (Z.mod_small (byte_val b) (2 ^ 8)) by (change (2 ^ 8) with 256; lia).
  apply Z.mod_pow2_bits_high. lia.
Qed.

Lemma byte_eq_of_bits (b b' : byte) :
  (forall j, 0 <= j < 8 ->
     Z.testbit (byte_val b) j = Z.testbit (byte_val b') j) ->
  b = b'.
Proof.
  intros H. apply byte_val_inj. apply Z.bits_inj'. intros j Hj.
  destruct (Z_lt_dec j 8); [apply H; lia|].
  rewrite !byte_high_bits by lia. reflexivity.
Qed.

Lemma checked_triples_inj (a b c a' b' c' x y z x' y' z' : bool) :
  (if Bool.eqb a (negb a') && Bool.eqb b (negb b') && Bool.eqb c (negb c')
   then Z.b2z a * 4 + Z.b2z b * 2 + Z.b2z c else -1) <> -1 ->
  (if Bool.eqb x (negb x') && Bool.eqb y (negb y') && Bool.eqb z (negb z')
   then Z.b2z x * 4 + Z.b2z y * 2 + Z.b2z z else -1)
  = (if Bool.eqb a (negb a') && Bool.eqb b (negb b') && Bool.eqb c (negb c')
     then Z.b2z a * 4 + Z.b2z b * 2 + Z.b2z c else -1) ->
  a = x /\ b = y /\ c = z /\ a' = x' /\ b' = y' /\ c' = z'.
Proof.
  destruct a, b, c, a', b', c'; cbn; intros Hok; try (now elim Hok);
    destruct x, y, z, x', y', z'; cbn; intros Heq; try discriminate;
    repeat split; reflexivity.
Qed.

(** The six bits of a slot that decodes are fixed by the decoded value. *)
Lemma decoded_slot_bits (ab ab' : list byte) (k : Z) :
  0 <= k <= 3 ->
  get_access_condition 0 k ab <> -1 ->
  get_access_condition 0 k ab' = get_access_condition 0 k ab ->
  forall m : nat, (m < 3)%nat ->
    Z.testbit (rd ab m) k = Z.testbit (rd ab' m) k /\
    Z.testbit (rd ab m) (4 + k) = Z.testbit (rd ab' m) (4 + k).
Proof.
  intros Hk.
  assert (0 <= slot_index 0 k <= 3) as Hs by exact Hk.
  rewrite !(get_access_condition_slot _ 0 k Hs).
  change (slot_index 0 k) with k.
  unfold C1, C2, C3, bit.
  intros Hok Heq m Hm.
  destruct (checked_triples_inj _ _ _ _ _ _ _ _ _ _ _ _ Hok Heq)
    as (E1 & E2 & E3 & E4 & E5 & E6).
  assert (m = 0 \/ m = 1 \/ m = 2)%nat as [-> | [-> | ->]] by lia;
    split; assumption.
Qed.

(** X3. Access bytes on which all four slots decode are determined by the
    four decoded conditions: two such quadruples with the same conditions
    have the same first three bytes. *)
Theorem X3_decodable_bytes_are_determined
    (b0 b1 b2 b3 b0' b1' b2' b3' : byte) :
  (forall k, 0 <= k <= 3 ->
     get_access_condition 0 k [b0; b1; b2; b3] <> -1 /\
     get_access_condition 0 k [b0'; b1'; b2'; b3']
     = get_access_condition 0 k [b0; b1; b2; b3]) ->
  b0 = b0' /\ b1 = b1' /\ b2 = b2'.
Proof.
  intros H.
  assert (forall (m : nat) j, (m < 3)%nat -> 0 <= j < 8 ->
            Z.testbit (rd [b0; b1; b2; b3] m) j
            = Z.testbit (rd [b0'; b1'; b2'; b3'] m) j) as Hbits.
  { intros m j Hm Hj.
    destruct (Z_lt_dec j 4).
    - destruct (H j ltac:(lia)) as [Hok Heq].
      exact (proj1 (decoded_slot_bits _ _ j ltac:(lia) Hok Heq m Hm)).
    - destruct (H (j - 4) ltac:(lia)) as [Hok Heq].
      pose proof (proj2 (decoded_slot_bits _ _ (j - 4) ltac:(lia) Hok Heq m Hm))
        as E.
      replace (4 + (j - 4)) with j in E by lia. exact E. }
  repeat split; apply byte_eq_of_bits; intros j Hj.
  - exact (Hbits 0%nat j ltac:(lia) Hj).
  - exact (Hbits 1%nat j ltac:(lia) Hj).
  - exact (Hbits 2%nat j ltac:(lia) Hj).
Qed.

Lemma X3_witness :
  (forall k, 0 <= k <= 3 ->
     get_access_condition 0 k [xff; x07; x80; x00] <> -1 /\
     get_access_condition 0 k [xff; x07; x80; x69]
     = get_access_condition 0 k [xff; x07; x80; x00]) /\
  xff = xff /\ x07 = x07 /\ x80 = x80.
Proof.
  assert (forall k, 0 <= k <= 3 ->
            get_access_condition 0 k [xff; x07; x80; x00] <> -1 /\
            get_access_condition 0 k [xff; x07; x80; x69]
            = get_access_condition 0 k [xff; x07; x80; x00]) as H.
  { intros k Hk.
    assert (k = 0 \/ k = 1 \/ k = 2 \/ k = 3) as [-> | [-> | [-> | ->]]]
      by lia; split; (reflexivity || (cbv; discriminate)). }
  exact (conj H
    (X3_decodable_bytes_are_determined xff x07 x80 x00 xff x07 x80 x69 H)).
Defined.

(** ** Slots reached by the report *)

Lemma slot_of_visited_block (sector block : Z) :
  0 <= sector -> 0 <= block < blocks (sector_layout sector) ->
  0 <= slot_index sector block <= 3 /\
  (block = blocks (sector_layout sector) - 1 -> slot_index sector block = 3).
Proof.
  intros Hs Hb. rewrite blocks_of_sector in *. unfold slot_index.
  destruct (Z.ltb_spec sector 32); destruct (Z.leb_spec 32 sector); try lia.
  assert (0 <= block / 5 <= 3).
  { split; [apply Z.div_pos; lia|].
    apply Z.lt_succ_r. apply Z.div_lt_upper_bound; lia. }
  split; [assumption|]. intros ->. reflexivity.
Qed.

(** X4. [print_info] never sends the decoder into its default case: for
    every block it visits the slot is in 0..3, and the trailer block is slot
    3 in both kinds of sector.  So the row of a block has an empty
    permission text exactly when one of the three direct bits of its slot
    is not the complement of its inverted copy. *)
Theorem X4_error_row_means_inconsistent_bits
    (o : options) (file : list byte) (sectors sector block : Z) :
  sectors_of_size (data_size_of o file) = Some sectors ->
  0 <= sector < sectors ->
  0 <= block < blocks (sector_layout sector) ->
  let ab := access_bits_of (data_of file) (sector_layout sector) in
  let k := slot_index sector block in
  0 <= k <= 3 /\
  (block = blocks (sector_layout sector) - 1 -> k = 3) /\
  exists row,
    nth_error (rows_of (out (print_info o file))) (row_index sector block)
    = Some row /\
    (str_permissions row = empty_string
     <-> ~ (C1 ab k + nC1 ab k = 1 /\ C2 ab k + nC2 ab k = 1 /\
            C3 ab k + nC3 ab k = 1)).
Proof.
  intros Hs Hsec Hb ab k.
  destruct (slot_of_visited_block sector block ltac:(lia) Hb) as [Hk Ht].
  split; [exact Hk|]. split; [exact Ht|].
  exists (block_row (colors o) (data_of file) sector block).
  split; [apply (print_info_row o file sectors); assumption|].
  pose proof (decode_succeeds_iff ab sector block Hk) as Hd.
  cbv zeta in Hd. subst k. rewrite <- Hd. clear Hd.
  unfold block_row. cbn [str_permissions]. fold ab.
  destruct (get_access_condition_range ab sector block) as [E|Hr].
  - rewrite E, access_columns_invalid. cbn [snd].
    split; [intros _ H; now apply H | reflexivity].
  - rewrite access_columns_valid by exact Hr. cbn [snd].
    pose proof (permission_text_not_empty (sector_layout sector)
                  sector block _ Hr) as Hne.
    split; [intros H; contradiction | intros H; exfalso; apply H; lia].
Qed.

Lemma X4_witness :
  let o := {| force_1k := false; colored := false |} in
  sectors_of_size (data_size_of o sample_dump) = Some 5 /\
  0 <= 2 < 5 /\
  0 <= 0 < blocks (sector_layout 2) /\
  0 <= slot_index 2 0 <= 3 /\
  exists row,
    nth_error (rows_of (out (print_info o sample_dump))) (row_index 2 0)
    = Some row /\
    (str_permissions row = empty_string
     <-> ~ (C1 (access_bits_of (data_of sample_dump) (sector_layout 2))
               (slot_index 2 0)
            + nC1 (access_bits_of (data_of sample_dump) (sector_layout 2))
                (slot_index 2 0) = 1 /\
            C2 (access_bits_of (data_of sample_dump) (sector_layout 2))
               (slot_index 2 0)
            + nC2 (access_bits_of (data_of sample_dump) (sector_layout 2))
                (slot_index 2 0) = 1 /\
            C3 (access_bits_of (data_of sample_dump) (sector_layout 2))
               (slot_index 2 0)
            + nC3 (access_bits_of (data_of sample_dump) (sector_layout 2))
                (slot_index 2 0) = 1)).
Proof.
  intros o.
  assert (sectors_of_size (data_size_of o sample_dump) = Some 5) as H1
    by (vm_compute; reflexivity).
  assert (0 <= 2 < 5) as H2 by lia.
  assert (0 <= 0 < blocks (sector_layout 2)) as H3
    by (cbv; split; [discriminate | reflexivity]).
  pose proof (X4_error_row_means_inconsistent_bits o sample_dump 5 2 0
                H1 H2 H3) as H.
  exact (conj H1 (conj H2 (conj H3 (conj (proj1 H) (proj2 (proj2 H)))))).
Defined.

(** X5. When the condition of a block decodes, the access column of its
    row shows the three direct bits of the block's slot from left to right
    in the order C1, C2, C3, between the access colour and the reset. *)
Theorem X5_access_column_shows_C1_C2_C3
    (o : options) (file : list byte) (sectors sector block : Z) :
  sectors_of_size (data_size_of o file) = Some sectors ->
  0 <= sector < sectors ->
  0 <= block < blocks (sector_layout sector) ->
  let ab := access_bits_of (data_of file) (sector_layout sector) in
  let k := slot_index sector block in
  get_access_condition sector block ab <> -1 ->
  exists row,
    nth_error (rows_of (out (print_info o file))) (row_index sector block)
    = Some row /\
    str_access_bits row
    = (color_access (colors o) ++
       dec (C1 ab k) ++ dec (C2 ab k) ++ dec (C3 ab k) ++
       color_default (colors o))%string.
Proof.
  intros Hs Hsec Hb ab k Hok.
  destruct (slot_of_visited_block sector block ltac:(lia) Hb) as [Hk _].
  exists (block_row (colors o) (data_of file) sector block).
  split; [apply (print_info_row o file sectors); assumption|].
  unfold block_row. cbn [str_access_bits]. fold ab.
  destruct (get_access_condition_range ab sector block) as [E|Hr];
    [contradiction|].
  rewrite access_columns_valid by exact Hr. cbn [fst].
  f_equal.
  rewrite (get_access_condition_slot ab sector block Hk) in Hok |- *.
  fold k in Hok |- *.
  destruct (_ && _ && _); [|now elim Hok].
  unfold C1, C2, C3, bit.
  destruct (Z.testbit (rd ab 1) (4 + k)), (Z.testbit (rd ab 2) k),
    (Z.testbit (rd ab 2) (4 + k)); reflexivity.
Qed.

Lemma X5_witness :
  let o := {| force_1k := false; colored := false |} in
  sectors_of_size (data_size_of o sample_dump) = Some 5 /\
  0 <= 1 < 5 /\
  0 <= 3 < blocks (sector_layout 1) /\
  get_access_condition 1 3
    (access_bits_of (data_of sample_dump) (sector_layout 1)) <> -1 /\
  exists row,
    nth_error (rows_of (out (print_info o sample_dump))) (row_index 1 3)
    = Some row /\
    str_access_bits row = "001"%string.
Proof.
  intros o.
  assert (sectors_of_size (data_size_of o sample_dump) = Some 5) as H1
    by (vm_compute; reflexivity).
  assert (0 <= 1 < 5) as H2 by lia.
  assert (0 <= 3 < blocks (sector_layout 1)) as H3
    by (cbv; split; [discriminate | reflexivity]).
  assert (get_access_condition 1 3
            (access_bits_of (data_of sample_dump) (sector_layout 1)) <> -1)
    as H4 by (vm_compute; discriminate).
  destruct (X5_access_column_shows_C1_C2_C3 o sample_dump 5 1 3 H1 H2 H3 H4)
    as (row & Hrow & Hcol).
  refine (conj H1 (conj H2 (conj H3 (conj H4 _)))).
  exists row. split; [exact Hrow|]. rewrite Hcol. vm_compute. reflexivity.
Defined.

(** ** The data column *)

Lemma concat_empty_cons (x : string) (l : list string) :
  String.concat "" (x :: l) = (x ++ String.concat "" l)%string.
Proof.
  destruct l as [|y l]; cbn [String.concat].
  - induction x as [|a x IH]; cbn; [reflexivity | rewrite <- IH; reflexivity].
  - reflexivity.
Qed.

Lemma append_assoc (a b c : string) :
  ((a ++ b) ++ c = a ++ (b ++ c))%string.
Proof. induction a as [|x a IH]; cbn; [reflexivity | rewrite IH; reflexivity]. Qed.

Lemma append_empty_r (a : string) : (a ++ "" = a)%string.
Proof. induction a as [|x a IH]; cbn; [reflexivity | rewrite IH; reflexivity]. Qed.

Lemma hex_run_succ (p : list byte) (n : nat) :
  hex_run p (S n) = (hex2 (rd p 0) ++ hex_run (skipn 1 p) n)%string.
Proof.
  unfold hex_run. cbn [seq map]. rewrite concat_empty_cons. f_equal. f_equal.
  rewrite <- seq_shift, map_map. apply map_ext. intros i.
  unfold rd. rewrite nth_skipn. reflexivity.
Qed.

Lemma hex_run_app (p : list byte) (a b : nat) :
  hex_run p (a + b) = (hex_run p a ++ hex_run (skipn a p) b)%string.
Proof.
  revert p. induction a as [|a IH]; intros p; [reflexivity|].
  cbn [Nat.add]. rewrite !hex_run_succ, IH, append_assoc, skipn_skipn.
  replace (a + 1)%nat with (S a) by lia. reflexivity.
Qed.

Lemma hex_run_length (p : list byte) (n : nat) :
  String.length (hex_run p n) = (2 * n)%nat.
Proof.
  revert p. induction n as [|n IH]; intros p; [reflexivity|].
  rewrite hex_run_succ. cbn [hex2 append String.length]. rewrite IH. lia.
Qed.

Lemma at_offset_add (data : list byte) (off : Z) (n : nat) :
  0 <= off ->
  at_offset data (off + Z.of_nat n) = skipn n (at_offset data off).
Proof.
  intros H. unfold at_offset. rewrite skipn_skipn. f_equal. lia.
Qed.

(** The trailer's three fields, side by side, are the sixteen bytes of
    the trailer block. *)
Lemma trailer_fields_are_the_block (data : list byte) (sector : Z) :
  0 <= sector < 40 ->
  let l := sector_layout sector in
  (hex_run (keyA_of data l) 6 ++ hex_run (access_bits_of data l) 4
   ++ hex_run (keyB_of data l) 6)%string
  = hex_run (at_offset data (sector_start l + (blocks l - 1) * 16)) 16.
Proof.
  intros Hs l.
  destruct (layout_facts sector Hs) as (H0 & H1 & H2 & H3 & H4).
  fold l in H0, H1, H2, H3, H4.
  unfold keyA_of, access_bits_of, keyB_of. subst l.
  rewrite !trailer_field_value by lia.
  set (l := sector_layout sector) in *.
  replace (sector_start l + sector_size l - 16 + 0)
    with (sector_start l + (blocks l - 1) * 16) by lia.
  replace (sector_start l + sector_size l - 16 + 6)
    with (sector_start l + (blocks l - 1) * 16 + Z.of_nat 6) by lia.
  replace (sector_start l + sector_size l - 16 + 10)
    with (sector_start l + (blocks l - 1) * 16 + Z.of_nat 10) by lia.
  rewrite !at_offset_add by lia.
  change 16%nat with (6 + (4 + 6))%nat.
  rewrite (hex_run_app _ 6 (4 + 6)), (hex_run_app _ 4 6), skipn_skipn.
  reflexivity.
Qed.

Lemma block_start_value (sector block : Z) :
  0 <= sector < 40 -> 0 <= block < blocks (sector_layout sector) ->
  let l := sector_layout sector in
  u32 (sector_start l + u32 (block * block_size l))
  = sector_start l + block * 16.
Proof.
  intros Hs Hb l.
  destruct (layout_facts sector Hs) as (H0 & H1 & H2 & H3 & H4).
  fold l in H0, H1, H2, H3, H4, Hb. rewrite H3.
  assert (forall x, 0 <= x < 2 ^ 32 -> u32 x = x) as Hid
    by (intros x Hx; apply Z.mod_small; exact Hx).
  rewrite (Hid (block * 16)) by lia. apply Hid. lia.
Qed.

(** X6. The data column of a row is the sixteen bytes of its block in hex,
    in address order: always for a data block, and for a trailer too when
    colours are off (with colours on, the same 32 digits are cut into key
    A, access bits and key B by the colour codes). *)
Theorem X6_data_column_is_the_block_in_hex
    (o : options) (file : list byte) (sectors sector block : Z) :
  sectors_of_size (data_size_of o file) = Some sectors ->
  0 <= sector < sectors ->
  0 <= block < blocks (sector_layout sector) ->
  let l := sector_layout sector in
  let bytes := at_offset (data_of file) (sector_start l + block * 16) in
  exists row,
    nth_error (rows_of (out (print_info o file))) (row_index sector block)
    = Some row /\
    (block <> blocks l - 1 \/ colored o = false ->
     str_data_hex row = hex_run bytes 16) /\
    (block = blocks l - 1 ->
     str_data_hex row
     = (color_keyA (colors o) ++ hex_run bytes 6 ++
        color_access (colors o) ++ hex_run (skipn 6 bytes) 4 ++
        color_keyB (colors o) ++ hex_run (skipn 10 bytes) 6 ++
        color_default (colors o))%string).
Proof.
  intros Hs Hsec Hb l bytes. subst l bytes.
  assert (sector < 40) as H40
    by (destruct (sectors_of_size_Some _ _ Hs)
          as [[_ ->]|[[_ ->]|[[_ ->]|[_ ->]]]]; lia).
  assert (0 <= sector < 40) as Hs40 by lia.
  exists (block_row (colors o) (data_of file) sector block).
  split; [apply (print_info_row o file sectors); assumption|].
  unfold block_row. cbn [str_data_hex]. unfold data_hex.
  rewrite trailer_block_index.
  pose proof (block_start_value sector block Hs40 Hb) as Hbs.
  cbv zeta in Hbs. rewrite Hbs.
  pose proof (trailer_fields_are_the_block (data_of file) sector Hs40) as Ht.
  cbv zeta in Ht.
  unfold keyA_of, access_bits_of, keyB_of in *.
  rewrite !trailer_field_value in * by lia.
  destruct (layout_facts sector Hs40) as (H0 & H1 & H2 & H3 & H4).
  set (l := sector_layout sector) in *.
  replace (sector_start l + sector_size l - 16 + 0)
    with (sector_start l + (blocks l - 1) * 16) in * by lia.
  replace (sector_start l + sector_size l - 16 + 6)
    with (sector_start l + (blocks l - 1) * 16 + Z.of_nat 6) in * by lia.
  replace (sector_start l + sector_size l - 16 + 10)
    with (sector_start l + (blocks l - 1) * 16 + Z.of_nat 10) in * by lia.
  destruct (Z.eqb_spec block (blocks l - 1)) as [Hlast|Hnot].
  - rewrite Hlast. split.
    + intros [Hne|Hplain]; [contradiction|].
      unfold colors. rewrite Hplain. cbn [plain_palette color_keyA
        color_access color_keyB color_default empty_string append].
      rewrite append_empty_r. exact Ht.
    + intros _. rewrite !at_offset_add by lia. reflexivity.
  - split; [|intros; contradiction].
    intros _. rewrite H3. reflexivity.
Qed.

Lemma X6_witness :
  let o := {| force_1k := false; colored := false |} in
  sectors_of_size (data_size_of o sample_dump) = Some 5 /\
  0 <= 1 < 5 /\
  0 <= 3 < blocks (sector_layout 1) /\
  (3 <> blocks (sector_layout 1) - 1 \/ colored o = false) /\
  exists row,
    nth_error (rows_of (out (print_info o sample_dump))) (row_index 1 3)
    = Some row /\
    str_data_hex row = "000000000000ff078000000000000000"%string.
Proof.
  intros o.
  assert (sectors_of_size (data_size_of o sample_dump) = Some 5) as H1
    by (vm_compute; reflexivity).
  assert (0 <= 1 < 5) as H2 by lia.
  assert (0 <= 3 < blocks (sector_layout 1)) as H3
    by (cbv; split; [discriminate | reflexivity]).
  assert (3 <> blocks (sector_layout 1) - 1 \/ colored o = false) as H4
    by (right; reflexivity).
  destruct (X6_data_column_is_the_block_in_hex o sample_dump 5 1 3 H1 H2 H3)
    as (row & Hrow & Hhex & _).
  refine (conj H1 (conj H2 (conj H3 (conj H4 _)))).
  exists row. split; [exact Hrow|]. rewrite (Hhex H4). vm_compute. reflexivity.
Defined.

(** ** The report keeps the whole dump *)

Lemma hex_digit_inj (a b : Z) :
  0 <= a < 16 -> 0 <= b < 16 -> hex_digit a = hex_digit b -> a = b.
Proof.
  intros Ha Hb.
  assert (a = 0 \/ a = 1 \/ a = 2 \/ a = 3 \/ a = 4 \/ a = 5 \/ a = 6 \/ a = 7
          \/ a = 8 \/ a = 9 \/ a = 10 \/ a = 11 \/ a = 12 \/ a = 13 \/ a = 14
          \/ a = 15)
    as [-> | [-> | [-> | [-> | [-> | [-> | [-> | [-> | [-> | [-> | [-> | [->
        | [-> | [-> | [-> | ->]]]]]]]]]]]]]]] by lia;
    assert (b = 0 \/ b = 1 \/ b = 2 \/ b = 3 \/ b = 4 \/ b = 5 \/ b = 6
            \/ b = 7 \/ b = 8 \/ b = 9 \/ b = 10 \/ b = 11 \/ b = 12
            \/ b = 13 \/ b = 14 \/ b = 15)
      as [-> | [-> | [-> | [-> | [-> | [-> | [-> | [-> | [-> | [-> | [-> | [->
          | [-> | [-> | [-> | ->]]]]]]]]]]]]]]] by lia;
    vm_compute; intros H; (reflexivity || discriminate H).
Qed.

Lemma hex_digits_inj (v w : Z) :
  0 <= v < 256 -> 0 <= w < 256 ->
  hex_digit (v / 16) = hex_digit (w / 16) ->
  hex_digit (v mod 16) = hex_digit (w mod 16) ->
  v = w.
Proof.
  intros Hv Hw Hq Hr.
  apply hex_digit_inj in Hq;
    [|split; [apply Z.div_pos; lia | apply Z.div_lt_upper_bound; lia]..].
  apply hex_digit_inj in Hr; [|apply Z.mod_pos_bound; lia..].
  rewrite (Z.div_mod v 16), (Z.div_mod w 16) by lia. congruence.
Qed.

Lemma rd_range (p : list byte) (i : nat) : 0 <= rd p i < 256.
Proof. apply byte_val_range. Qed.

Lemma append_cancel_l (s a b : string) :
  (s ++ a = s ++ b)%string -> a = b.
Proof.
  induction s as [|x s IH]; cbn; intros H; [exact H|].
  injection H as H. exact (IH H).
Qed.

(** A run of hex digits in front of two texts: equal texts have equal
    bytes in the run and equal remainders. *)
Lemma hex_run_app_inj (n : nat) (p p' : list byte) (r r' : string) :
  (hex_run p n ++ r = hex_run p' n ++ r')%string ->
  (forall i, (i < n)%nat -> rd p i = rd p' i) /\ r = r'.
Proof.
  revert p p'. induction n as [|n IH]; intros p p' H.
  - split; [intros i Hi; lia | exact H].
  - rewrite !hex_run_succ, !append_assoc in H.
    cbn [hex2 append] in H. injection H as Hq Hr Hrest.
    destruct (IH _ _ Hrest) as [Hbytes Hrem].
    split; [|exact Hrem].
    intros i Hi. destruct i as [|i].
    + apply hex_digits_inj; auto using rd_range.
    + specialize (Hbytes i ltac:(lia)).
      assert (forall q : list byte,
                nth i (match q with [] => [] | _ :: l => l end) x00
                = nth (S i) q x00) as E
        by (intros q; destruct q; [destruct i; reflexivity | reflexivity]).
      unfold rd in Hbytes |- *. rewrite !E in Hbytes. exact Hbytes.
Qed.

Lemma hex_run_inj (n : nat) (p p' : list byte) :
  hex_run p n = hex_run p' n -> forall i, (i < n)%nat -> rd p i = rd p' i.
Proof.
  intros H. apply (hex_run_app_inj n p p' "" "").
  rewrite !append_empty_r. exact H.
Qed.

(** Every byte of an accepted size lies in a block of a sector. *)
Lemma locate_byte (n sectors i : Z) :
  sectors_of_size n = Some sectors -> 0 <= i < n ->
  exists sector block j,
    0 <= sector < sectors /\
    0 <= block < blocks (sector_layout sector) /\
    0 <= j < 16 /\
    i = sector_start (sector_layout sector) + block * 16 + j.
Proof.
  intros Hs Hi.
  assert ((n <= 2048 /\ n = sectors * 64) \/ (n = 4096 /\ sectors = 40))
    as Hn
    by (destruct (sectors_of_size_Some _ _ Hs)
          as [[-> ->]|[[-> ->]|[[-> ->]|[-> ->]]]]; lia).
  destruct (Z_lt_dec i 2048) as [Hlow|Hhigh].
  - exists (i / 64), ((i mod 64) / 16), (i mod 16).
    assert (0 <= i / 64 < 32) as Hsec by (Z.div_mod_to_equations; lia).
    rewrite sector_layout_standard by exact Hsec.
    cbn [blocks sector_start].
    Z.div_mod_to_equations. lia.
  - exists (32 + (i - 2048) / 256), (((i - 2048) mod 256) / 16), (i mod 16).
    assert (32 <= 32 + (i - 2048) / 256 < 40) as Hsec
      by (Z.div_mod_to_equations; lia).
    rewrite sector_layout_extended by exact Hsec.
    cbn [blocks sector_start].
    Z.div_mod_to_equations. lia.
Qed.

(** ** What reaches the terminal *)

Lemma clean_app (e : bool) (a b : string) :
  clean e (a ++ b) = clean e a && clean e b.
Proof.
  unfold clean. induction a as [|x a IH]; [reflexivity|].
  cbn [append list_ascii_of_string forallb]. rewrite IH.
  apply Bool.andb_assoc.
Qed.

Lemma clean_spaces (e : bool) (n : nat) :
  clean e (string_of_list_ascii (repeat " "%char n)) = true.
Proof. induction n as [|n IH]; [reflexivity | exact IH]. Qed.

Lemma clean_pad_right (e : bool) (w : nat) (s : string) :
  clean e s = true -> clean e (pad_right w s) = true.
Proof.
  intros H. unfold pad_right. rewrite clean_app, H, clean_spaces. reflexivity.
Qed.

Lemma clean_uint (e : bool) (d : Decimal.uint) :
  clean e (NilEmpty.string_of_uint d) = true.
Proof. induction d; cbn [NilEmpty.string_of_uint]; try reflexivity; exact IHd. Qed.

Lemma clean_dec (e : bool) (n : Z) : clean e (dec n) = true.
Proof.
  unfold dec, NilZero.string_of_int, NilZero.string_of_uint.
  assert (forall d, clean e (match d with
                             | Decimal.Nil => "0"%string
                             | _ => NilEmpty.string_of_uint d
                             end) = true) as H
    by (intros d; destruct d; try reflexivity; apply (clean_uint e (_ _))).
  destruct (Z.to_int n) as [d|d]; [apply H|].
  change (String "-" ?s) with ("-" ++ s)%string.
  rewrite clean_app, H. reflexivity.
Qed.

Lemma printable_hex_digit (n : Z) : printable_char (hex_digit n) = true.
Proof.
  unfold hex_digit.
  destruct (nth_in_or_default (Z.to_nat n)
              (list_ascii_of_string "0123456789abcdef") "0"%char) as [H | ->];
    [|reflexivity].
  assert (Forall (fun c => printable_char c = true)
            (list_ascii_of_string "0123456789abcdef")) as Hall
    by (repeat constructor).
  rewrite Forall_forall in Hall. exact (Hall _ H).
Qed.

Lemma clean_hex2 (e : bool) (v : Z) : clean e (hex2 v) = true.
Proof.
  unfold hex2, clean. cbn [list_ascii_of_string forallb].
  rewrite !printable_hex_digit. reflexivity.
Qed.

Lemma clean_hex_run (e : bool) (p : list byte) (n : nat) :
  clean e (hex_run p n) = true.
Proof.
  revert p. induction n as [|n IH]; intros p; [reflexivity|].
  rewrite hex_run_succ, clean_app, clean_hex2, IH. reflexivity.
Qed.

Lemma clean_colors (o : options) :
  clean (colored o) (color_keyA (colors o)) = true /\
  clean (colored o) (color_keyB (colors o)) = true /\
  clean (colored o) (color_access (colors o)) = true /\
  clean (colored o) (color_warning (colors o)) = true /\
  clean (colored o) (color_default (colors o)) = true.
Proof. unfold colors. destruct (colored o); repeat split; reflexivity. Qed.

Lemma clean_table_entries (e : bool) (c : Z) :
  clean e (entry bit_rep c) = true /\
  clean e (entry permission_trailer c) = true /\
  clean e (entry permission_data c) = true.
Proof.
  unfold entry.
  destruct (Z.to_nat c) as [|[|[|[|[|[|[|[|[|n]]]]]]]]];
    repeat split; try reflexivity; destruct n; reflexivity.
Qed.

Lemma clean_row (o : options) (data : list byte) (sector block : Z) :
  clean (colored o) (render (Row (block_row (colors o) data sector block)))
  = true.
Proof.
  destruct (clean_colors o) as (HA & HB & Hacc & Hw & Hd).
  unfold render, block_row.
  cbn [str_sector row_block str_data_hex str_access_bits str_permissions
       str_data_ascii].
  assert (clean (colored o)
            (if block =? 1 then dec sector else empty_string) = true) as H1
    by (destruct (block =? 1); [apply clean_dec | reflexivity]).
  assert (clean (colored o)
            (data_hex (colors o) data (sector_layout sector) block) = true)
    as H2.
  { unfold data_hex. destruct (block =? u32 _).
    - rewrite !clean_app, !clean_hex_run, HA, HB, Hacc, Hd. reflexivity.
    - apply clean_hex_run. }
  set (c := get_access_condition sector block
              (access_bits_of data (sector_layout sector))).
  assert (clean (colored o)
            (fst (access_columns (colors o) (sector_layout sector)
                    sector block c)) = true /\
          clean (colored o)
            (snd (access_columns (colors o) (sector_layout sector)
                    sector block c)) = true) as [H3 H4].
  { destruct (clean_table_entries (colored o) c) as (T1 & T2 & T3).
    destruct (get_access_condition_range
                (access_bits_of data (sector_layout sector)) sector block)
      as [E|Hr]; fold c in E || fold c in Hr.
    - rewrite E, access_columns_invalid. cbn [fst snd].
      rewrite !clean_app, Hw, Hd. split; reflexivity.
    - rewrite access_columns_valid by exact Hr. cbn [fst snd].
      rewrite !clean_app, Hacc, Hd, T1. split; [reflexivity|].
      destruct (_ && _); [reflexivity|]. destruct (block =? u32 _); assumption. }
  rewrite !clean_app.
  rewrite (clean_pad_right _ _ _ H1), (clean_pad_right _ _ _ (clean_dec _ _)),
    (clean_pad_right _ _ _ H4), H2, H3.
  reflexivity.
Qed.

Lemma in_for_upto {A : Type} (x : A) (body : Z -> list A) (n : nat) (i : Z) :
  In x (for_upto n i body) <->
  exists j, i <= j < i + Z.of_nat n /\ In x (body j).
Proof.
  revert i. induction n as [|n IH]; intros i; cbn [for_upto].
  - split; [intros [] | intros (j & Hj & _); lia].
  - rewrite in_app_iff, IH. split.
    + intros [H|(j & Hj & H)]; [exists i | exists j]; split; auto; lia.
    + intros (j & Hj & H).
      destruct (Z.eq_dec j i) as [-> | Hne]; [left; exact H|].
      right. exists j. split; [lia | exact H].
Qed.

(** The lines of an accepted report. *)
Lemma in_report (o : options) (file : list byte) (line : printed) :
  In line (out (print_info o file)) ->
  exists sectors,
    sectors_of_size (data_size_of o file) = Some sectors /\
    (In line
       [FileSize (data_size_of o file) sectors;
        Uid (rd (data_of file) 0) (rd (data_of file) 1)
          (rd (data_of file) 2) (rd (data_of file) 3);
        Bcc (rd (data_of file) 4); Sak (rd (data_of file) 5);
        Atqa (rd (data_of file) 6) (rd (data_of file) 7);
        Rule; Heading1; Heading2; Heading3 (colors o)]
     \/ exists sector block,
          0 <= sector < sectors /\
          0 <= block < blocks (sector_layout sector) /\
          line = Row (block_row (colors o) (data_of file) sector block)).
Proof.
  unfold print_info, data_size_of, data_of.
  destruct (fread_data file) as [data n]. cbn [fst snd].
  destruct (sectors_of_size (if force_1k o then 1024 else n)) as [s|];
    cbn [out]; [|intros []].
  intros H. exists s. split; [reflexivity|].
  rewrite !in_app_iff in H. destruct H as [H|[H|H]].
  - left. exact H.
  - unfold sector_loop in H. apply in_for_upto in H.
    destruct H as (sector & Hsec & [<-|H]); [left; cbn; tauto|].
    unfold block_loop in H. apply in_for_upto in H.
    destruct H as (block & Hb & [<-|[]]).
    right. exists sector, block. split; [lia|]. split; [lia | reflexivity].
  - destruct H as [<-|[]]. left. cbn. tauto.
Qed.

(** X9. Nothing of the dump reaches the terminal raw: every line
    [print_info] prints consists of tabs, newlines and printable ASCII
    characters, and of escape characters of the colour codes when colours
    are on; with colours off there is no escape character at all. *)
Theorem X9_output_is_printable
    (o : options) (file : list byte) (line : printed) :
  In line (out (print_info o file)) ->
  clean (colored o) (render line) = true.
Proof.
  intros H. destruct (in_report o file line H) as (s & Hs & [Hpre|Hrow]).
  - destruct (clean_colors o) as (HA & HB & Hacc & Hw & Hd).
    cbn [In] in Hpre.
    destruct Hpre as [<-|[<-|[<-|[<-|[<-|[<-|[<-|[<-|[<-|[]]]]]]]]]];
      cbn [render]; rewrite ?clean_app, ?clean_dec, ?clean_hex2, ?HA, ?HB,
        ?Hacc, ?Hd; reflexivity.
  - destruct Hrow as (sector & block & _ & _ & ->). apply clean_row.
Qed.

Lemma X9_witness :
  let o := {| force_1k := false; colored := false |} in
  In (FileSize 320 5) (out (print_info o sample_dump)) /\
  clean false
    ("File size: 320 bytes. Expected 5 sectors" ++ NL)%string = true.
Proof.
  intros o.
  assert (In (FileSize 320 5) (out (print_info o sample_dump))) as H
    by (vm_compute; left; reflexivity).
  exact (conj H (X9_output_is_printable o sample_dump (FileSize 320 5) H)).
Defined.

(** ** The width of the table *)

Lemma length_app_string (a b : string) :
  String.length (a ++ b) = (String.length a + String.length b)%nat.
Proof. induction a as [|x a IH]; cbn; [reflexivity | rewrite IH; reflexivity]. Qed.

Lemma length_spaces (n : nat) :
  String.length (string_of_list_ascii (repeat " "%char n)) = n.
Proof. induction n as [|n IH]; cbn; [reflexivity | rewrite IH; reflexivity]. Qed.

Lemma pad_right_length (w : nat) (s : string) :
  String.length (pad_right w s) = Nat.max w (String.length s).
Proof. unfold pad_right. rewrite length_app_string, length_spaces. lia. Qed.

Lemma dec_length_small (z : Z) :
  0 <= z < 40 -> (1 <= String.length (dec z) <= 2)%nat.
Proof.
  intros Hz.
  assert (forallb (fun k => let n := String.length (dec (Z.of_nat k)) in
                            (1 <=? n)%nat && (n <=? 2)%nat) (seq 0 40) = true)
    as H by (vm_compute; reflexivity).
  rewrite forallb_forall in H.
  specialize (H (Z.to_nat z) ltac:(apply in_seq; lia)).
  cbv zeta in H. rewrite Z2Nat.id in H by lia.
  apply Bool.andb_true_iff in H. destruct H as [H1 H2].
  apply Nat.leb_le in H1, H2. lia.
Qed.

Lemma block_size_is_16 (sector : Z) : block_size (sector_layout sector) = 16.
Proof. unfold sector_layout. destruct (sector <? 32); reflexivity. Qed.

Lemma plain_columns_length (l : layout) (sector block c : Z) :
  c = -1 \/ 0 <= c <= 7 ->
  String.length (fst (access_columns plain_palette l sector block c)) = 3%nat
  /\ (String.length (snd (access_columns plain_palette l sector block c))
      <= 38)%nat.
Proof.
  intros [-> | Hc].
  - rewrite access_columns_invalid. cbn. lia.
  - rewrite access_columns_valid by exact Hc. cbn [fst snd].
    destruct ((block =? 0) && (sector =? 0)),
      (block =? u32 (blocks l - 1));
      destruct (small_condition c Hc)
        as [-> | [-> | [-> | [-> | [-> | [-> | [-> | ->]]]]]]];
      vm_compute; split; (reflexivity || lia || (repeat constructor)).
Qed.

Lemma plain_row_width (data : list byte) (sector block : Z) :
  0 <= sector < 40 -> 0 <= block < 16 ->
  String.length (render (Row (block_row plain_palette data sector block)))
  = 102%nat.
Proof.
  intros Hs Hb. unfold render, block_row.
  cbn [str_sector row_block str_data_hex str_access_bits str_permissions
       str_data_ascii].
  destruct (plain_columns_length (sector_layout sector) sector block
              (get_access_condition sector block
                 (access_bits_of data (sector_layout sector)))
              (get_access_condition_range _ _ _)) as [Ha Hp].
  assert (String.length
            (data_hex plain_palette data (sector_layout sector) block)
          = 32%nat) as Hh.
  { unfold data_hex. destruct (block =? u32 _).
    - cbn [plain_palette color_keyA color_access color_keyB color_default
           empty_string append].
      rewrite !length_app_string, !hex_run_length. reflexivity.
    - rewrite hex_run_length, block_size_is_16. reflexivity. }
  assert (String.length (if (block =? 1)%Z then dec sector else empty_string)
          <= 5)%nat as Hl.
  { destruct (block =? 1); [|cbn; lia].
    pose proof (dec_length_small sector Hs). lia. }
  pose proof (dec_length_small block ltac:(lia)) as Hd.
  rewrite !length_app_string, !pad_right_length, Ha, Hh.
  cbn [String.length NL empty_string]. lia.
Qed.

(** X8. With colours off every row of the table is printed 102 characters
    wide, the newline included, whatever the block holds: the columns never
    overflow their widths. *)
Theorem X8_plain_rows_have_one_width
    (o : options) (file : list byte) (r : row) :
  colored o = false ->
  In (Row r) (out (print_info o file)) ->
  String.length (render (Row r)) = 102%nat.
Proof.
  intros Hplain H.
  destruct (in_report o file (Row r) H) as (s & Hs & [Hpre|Hrow]).
  - cbn [In] in Hpre.
    repeat (destruct Hpre as [Hpre|Hpre]; [discriminate Hpre|]).
    contradiction.
  - destruct Hrow as (sector & block & Hsec & Hb & E).
    injection E as ->.
    assert (s <= 40) as H40
      by (destruct (sectors_of_size_Some _ _ Hs)
            as [[_ ->]|[[_ ->]|[[_ ->]|[_ ->]]]]; lia).
    rewrite blocks_of_sector in Hb.
    unfold colors. rewrite Hplain.
    apply plain_row_width; [lia|]. destruct (sector <? 32); lia.
Qed.

Lemma X8_witness :
  let o := {| force_1k := false; colored := false |} in
  let r := block_row plain_palette (data_of sample_dump) 0 0 in
  colored o = false /\
  In (Row r) (out (print_info o sample_dump)) /\
  String.length (render (Row r)) = 102%nat.
Proof.
  intros o r.
  assert (colored o = false) as H1 by reflexivity.
  assert (In (Row r) (out (print_info o sample_dump))) as H2
    by (vm_compute; do 10 right; left; reflexivity).
  exact (conj H1 (conj H2
    (X8_plain_rows_have_one_width o sample_dump r H1 H2))).
Defined.

(** ** The shape of the report *)

Lemma for_upto_split_32 {A : Type} (body : Z -> list A) (sectors : Z) :
  for_upto (Z.to_nat sectors) 0 body
  = for_upto (Z.to_nat (Z.min sectors 32)) 0 body
    ++ for_upto (Z.to_nat (sectors - 32)) 32 body.
Proof.
  destruct (Z_le_dec sectors 32) as [Hle|Hgt].
  - rewrite Z.min_l by lia.
    replace (Z.to_nat (sectors - 32)) with 0%nat by lia.
    cbn [for_upto]. symmetry. apply app_nil_r.
  - rewrite Z.min_r by lia.
    replace (Z.to_nat sectors)
      with (Z.to_nat 32 + Z.to_nat (sectors - 32))%nat by lia.
    rewrite for_upto_app. reflexivity.
Qed.

Lemma filter_for_upto {A : Type} (f : A -> bool) (body : Z -> list A)
    (n : nat) (i : Z) :
  filter f (for_upto n i body) = for_upto n i (fun j => filter f (body j)).
Proof.
  revert i. induction n as [|n IH]; intros i; [reflexivity|].
  cbn [for_upto]. rewrite filter_app, IH. reflexivity.
Qed.

Lemma block_loop_length (pal : palette) (data : list byte) (sector : Z) :
  List.length (block_loop pal data sector)
  = Z.to_nat (blocks (sector_layout sector)).
Proof.
  unfold block_loop.
  rewrite (for_upto_length 1) by reflexivity. apply Nat.mul_1_r.
Qed.

Lemma block_loop_no_rule (pal : palette) (data : list byte) (sector : Z) :
  filter is_rule (block_loop pal data sector) = [].
Proof.
  unfold block_loop. rewrite filter_for_upto.
  generalize (Z.to_nat (blocks (sector_layout sector))), 0.
  intros n. induction n as [|n IH]; intros i; [reflexivity|].
  cbn [for_upto filter is_rule app]. apply IH.
Qed.

Lemma sector_loop_length (pal : palette) (data : list byte) (sectors : Z) :
  Z.of_nat (List.length (sector_loop pal data sectors))
  = 5 * Z.max 0 (Z.min sectors 32) + 17 * Z.max 0 (sectors - 32).
Proof.
  unfold sector_loop. rewrite for_upto_split_32, length_app.
  rewrite (for_upto_length 5), (for_upto_length 17); [lia| |].
  - intros j Hj. cbn [List.length]. rewrite block_loop_length, blocks_of_sector.
    destruct (Z.ltb_spec j 32); [lia | reflexivity].
  - intros j Hj. cbn [List.length]. rewrite block_loop_length, blocks_of_sector.
    destruct (Z.ltb_spec j 32); [reflexivity | lia].
Qed.

Lemma sector_loop_rules (pal : palette) (data : list byte) (sectors : Z) :
  List.length (filter is_rule (sector_loop pal data sectors))
  = Z.to_nat sectors.
Proof.
  unfold sector_loop. rewrite filter_for_upto.
  rewrite (for_upto_length 1); [lia|].
  intros j _. cbn [filter is_rule]. rewrite block_loop_no_rule. reflexivity.
Qed.

(** X10. [print_info] either reports or complains, never both.  When the
    size is accepted it returns 0, writes nothing to [stderr], and prints
    nine lines of preamble, one rule and the rows of each sector, and a
    closing rule: [10 + sectors + rows] lines, [sectors + 2] of them rules.
    Otherwise it returns [EXIT_FAILURE], prints nothing and writes one
    message to [stderr]; this happens only without the force flag. *)
Theorem X10_report_or_complaint (o : options) (file : list byte) :
  let r := print_info o file in
  (exists sectors,
     sectors_of_size (data_size_of o file) = Some sectors /\
     exit_code r = 0 /\ err r = [] /\
     Z.of_nat (List.length (out r))
     = 10 + sectors + Z.of_nat (List.length (rows_of (out r))) /\
     Z.of_nat (List.length (filter is_rule (out r))) = sectors + 2 /\
     last (out r) Heading1 = Rule)
  \/
  (sectors_of_size (data_size_of o file) = None /\
   force_1k o = false /\
   exit_code r = EXIT_FAILURE /\ out r = [] /\
   err r = [wrong_size_message (data_size_of o file)]).
Proof.
  intros r.
  destruct (sectors_of_size (data_size_of o file)) as [s|] eqn:Hs.
  - left. exists s. split; [reflexivity|].
    destruct (print_info_accepts o file s Hs) as (He & Herr & _ & Hrows).
    split; [exact He|]. split; [exact Herr|].
    unfold r. rewrite Hrows, report_rows_length. clear Hrows He Herr.
    assert (0 <= s <= 40) as Hrange
      by (destruct (sectors_of_size_Some _ _ Hs)
            as [[_ ->]|[[_ ->]|[[_ ->]|[_ ->]]]]; lia).
    unfold print_info, data_size_of in *.
    destruct (fread_data file) as [data n]. cbn [snd] in Hs. rewrite Hs.
    cbn [out]. split; [|split].
    + rewrite !length_app. cbn [List.length].
      pose proof (sector_loop_length (colors o) data s). lia.
    + rewrite !filter_app, !length_app, sector_loop_rules.
      cbn [filter is_rule List.length]. lia.
    + rewrite app_assoc. apply last_last.
  - right. split; [reflexivity|]. split.
    + unfold data_size_of in Hs. destruct (force_1k o); [discriminate Hs|].
      reflexivity.
    + unfold r. rewrite (print_info_rejects o file Hs). repeat split.
Qed.

(** ** The force flag *)

(** X11. Forcing the 1k format changes no row of a sector that both
    reports have: for an input of an accepted size, the rows of the first
    [min sectors 16] sectors are the same with and without the flag. *)
Theorem X11_forcing_keeps_the_common_rows
    (c : bool) (file : list byte) (sectors sector block : Z) :
  let o := {| force_1k := false; colored := c |} in
  let forced := {| force_1k := true; colored := c |} in
  sectors_of_size (data_size_of o file) = Some sectors ->
  0 <= sector < Z.min sectors 16 -> 0 <= block < 4 ->
  exists row,
    nth_error (rows_of (out (print_info o file))) (row_index sector block)
    = Some row /\
    nth_error (rows_of (out (print_info forced file))) (row_index sector block)
    = Some row.
Proof.
  intros o forced Hs Hsec Hb.
  assert (blocks (sector_layout sector) = 4) as Hbl
    by (rewrite blocks_of_sector; destruct (Z.ltb_spec sector 32); lia).
  exists (block_row (colors o) (data_of file) sector block). split.
  - apply (print_info_row o file sectors); [exact Hs | lia | lia].
  - apply (print_info_row forced file 16); [reflexivity | lia | lia].
Qed.

Lemma X11_witness :
  let o := {| force_1k := false; colored := false |} in
  let forced := {| force_1k := true; colored := false |} in
  sectors_of_size (data_size_of o sample_dump) = Some 5 /\
  0 <= 4 < Z.min 5 16 /\ 0 <= 3 < 4 /\
  exists row,
    nth_error (rows_of (out (print_info o sample_dump))) (row_index 4 3)
    = Some row /\
    nth_error (rows_of (out (print_info forced sample_dump))) (row_index 4 3)
    = Some row.
Proof.
  intros o forced.
  assert (sectors_of_size (data_size_of o sample_dump) = Some 5) as H1
    by (vm_compute; reflexivity).
  assert (0 <= 4 < Z.min 5 16) as H2 by (cbv; split; [discriminate | reflexivity]).
  assert (0 <= 3 < 4) as H3 by lia.
  exact (conj H1 (conj H2 (conj H3
    (X11_forcing_keeps_the_common_rows false sample_dump 5 4 3 H1 H2 H3)))).
Defined.

Lemma print_info_forced (c : bool) (file : list byte) :
  let o := {| force_1k := true; colored := c |} in
  print_info o file =
    {| exit_code := 0;
       out :=
         [FileSize 1024 16;
          Uid (rd (data_of file) 0) (rd (data_of file) 1)
            (rd (data_of file) 2) (rd (data_of file) 3);
          Bcc (rd (data_of file) 4); Sak (rd (data_of file) 5);
          Atqa (rd (data_of file) 6) (rd (data_of file) 7);
          Rule; Heading1; Heading2; Heading3 (colors o)]
         ++ sector_loop (colors o) (data_of file) 16 ++ [Rule];
       err := [] |}.
Proof.
  intros o. unfold print_info, data_of.
  destruct (fread_data file) as [data n]. reflexivity.
Qed.

(** X12. With the force flag [print_info] looks at the first 1024 bytes of
    the input only, a byte the input does not have counting as zero: two
    inputs that agree on these give the same outcome. *)
Theorem X12_forced_mode_reads_1024_bytes (c : bool) (file file' : list byte) :
  let o := {| force_1k := true; colored := c |} in
  (forall i : nat, (i < 1024)%nat -> nth i file x00 = nth i file' x00) ->
  print_info o file = print_info o file'.
Proof.
  intros o Hsame.
  assert (forall i : nat, (i < 1024)%nat ->
            rd (data_of file) i = rd (data_of file') i) as Hrd.
  { intros i Hi. rewrite !rd_data_of by lia. unfold rd.
    rewrite Hsame by exact Hi. reflexivity. }
  unfold o. rewrite !print_info_forced. fold o.
  rewrite !(Hrd 0%nat), !(Hrd 1%nat), !(Hrd 2%nat), !(Hrd 3%nat),
    !(Hrd 4%nat), !(Hrd 5%nat), !(Hrd 6%nat), !(Hrd 7%nat) by lia.
  do 3 f_equal.
  unfold sector_loop. apply for_upto_ext. intros sector Hsec. f_equal.
  unfold block_loop. apply for_upto_ext. intros block Hb. do 2 f_equal.
  apply block_row_local; [lia | lia |].
  intros i Hi. apply Hrd.
  rewrite sector_layout_standard in Hi by lia.
  cbn [sector_start sector_size] in Hi. lia.
Qed.

Lemma X12_witness :
  let o := {| force_1k := true; colored := false |} in
  (forall i : nat, (i < 1024)%nat ->
     nth i [x01] x00 = nth i ([x01; x00] ++ repeat x00 1024 ++ [xff]) x00) /\
  print_info o [x01] = print_info o ([x01; x00] ++ repeat x00 1024 ++ [xff]).
Proof.
  intros o.
  assert (forall i : nat, (i < 1024)%nat ->
            nth i [x01] x00
            = nth i ([x01; x00] ++ repeat x00 1024 ++ [xff]) x00) as H.
  { intros i Hi. destruct i as [|[|i]]; [reflexivity | reflexivity |].
    change ([x01; x00] ++ repeat x00 1024 ++ [xff])
      with (x01 :: x00 :: (repeat x00 1024 ++ [xff])).
    cbn [nth]. rewrite app_nth1 by (rewrite repeat_length; lia).
    rewrite nth_repeat. destruct i; reflexivity. }
  exact (conj H (X12_forced_mode_reads_1024_bytes false _ _ H)).
Defined.

(** ** The program name *)

Lemma chars_app (a b : string) : chars (a ++ b) = chars a ++ chars b.
Proof.
  unfold chars. induction a as [|x a IH]; [reflexivity|].
  cbn [append list_ascii_of_string]. rewrite IH. reflexivity.
Qed.

Lemma strrchr_None (s : string) (c : ascii) :
  strrchr s c = None -> ~ In c (chars s).
Proof.
  induction s as [|a s IH]; cbn [strrchr chars list_ascii_of_string];
    [intros _ []|].
  destruct (strrchr s c) as [p|]; [discriminate|].
  destruct (Ascii.eqb_spec a c) as [->|Hne]; [discriminate|].
  intros _ [H|H]; [contradiction | exact (IH eq_refl H)].
Qed.

Lemma strrchr_absent (s : string) (c : ascii) :
  ~ In c (chars s) -> strrchr s c = None.
Proof.
  intros H. destruct (strrchr s c) as [p|] eqn:E; [|reflexivity].
  exfalso. apply H. clear H. revert p E.
  induction s as [|a s IH]; cbn [strrchr]; intros p E; [discriminate|].
  cbn [chars list_ascii_of_string In].
  destruct (strrchr s c) as [q|]; [right; exact (IH q eq_refl)|].
  destruct (Ascii.eqb_spec a c) as [->|Hne]; [left; reflexivity | discriminate].
Qed.

Lemma strrchr_Some (s : string) (c : ascii) (p : string) :
  strrchr s c = Some p ->
  exists pre q, s = (pre ++ String c q)%string /\ p = String c q /\
                ~ In c (chars q).
Proof.
  revert p. induction s as [|a s IH]; cbn [strrchr]; intros p E;
    [discriminate|].
  destruct (strrchr s c) as [q0|] eqn:Es.
  - injection E as <-. destruct (IH q0 eq_refl) as (pre & q & -> & -> & Hq).
    exists (String a pre), q. repeat split; assumption.
  - destruct (Ascii.eqb_spec a c) as [->|Hne]; [|discriminate].
    injection E as <-. exists EmptyString, s.
    repeat split. exact (strrchr_None s c Es).
Qed.

(** X13. [ident_from_argv0] returns what follows the last slash of
    [argv[0]], and all of it when there is no slash: the result has no
    slash and [argv[0]] is a directory part, empty or ending in the
    separator, followed by the result.  Where [__WIN32__] is defined a
    name without any slash is cut after its last backslash instead.
    Without [__WIN32__] applying it twice changes nothing. *)
Theorem X13_program_name_is_the_base_name (win32 : bool) (argv0 : string) :
  let r := ident_from_argv0 win32 argv0 in
  ~ In "/"%char (chars r) /\
  (exists dir,
     argv0 = (dir ++ r)%string /\
     (dir = EmptyString \/
      exists d sep,
        dir = (d ++ String sep EmptyString)%string /\
        (sep = "/"%char \/
         (win32 = true /\ ~ In "/"%char (chars argv0) /\ sep = BACKSLASH))))
  /\
  (win32 = true -> ~ In "/"%char (chars argv0) ->
   ~ In BACKSLASH (chars r)) /\
  (win32 = false -> ident_from_argv0 win32 r = r).
Proof.
  intros r.
  assert (forall sep s q, (s ++ String sep q)%string
                      = ((s ++ String sep EmptyString) ++ q)%string) as Hsp
    by (intros sep s q; rewrite append_assoc; reflexivity).
  unfold ident_from_argv0 in r. cbv zeta in r.
  destruct (strrchr argv0 "/") as [p|] eqn:Eslash.
  - assert (r = next_char p) as Hr by (subst r; destruct win32; reflexivity).
    destruct (strrchr_Some _ _ _ Eslash) as (pre & q & Hs & Hp & Hq).
    rewrite Hp in Hr. cbn [next_char] in Hr. rewrite Hr.
    split; [exact Hq|]. split; [|split].
    + exists (pre ++ String "/" EmptyString)%string.
      split; [rewrite Hs; apply Hsp|].
      right. exists pre, "/"%char. split; [reflexivity | left; reflexivity].
    + intros _ Hno. exfalso. apply Hno. rewrite Hs, chars_app.
      apply in_or_app. right. left. reflexivity.
    + intros ->. unfold ident_from_argv0.
      rewrite (strrchr_absent q "/" Hq). reflexivity.
  - pose proof (strrchr_None _ _ Eslash) as Hno.
    destruct win32.
    + destruct (strrchr argv0 BACKSLASH) as [p|] eqn:Eback.
      * destruct (strrchr_Some _ _ _ Eback) as (pre & q & Hs & Hp & Hq).
        assert (r = q) as Hr by (subst r; rewrite Hp; reflexivity).
        rewrite Hr.
        assert (~ In "/"%char (chars q)) as Hqs.
        { intros H. apply Hno. rewrite Hs, chars_app. apply in_or_app.
          right. right. exact H. }
        split; [exact Hqs|]. split; [|split].
        -- exists (pre ++ String BACKSLASH EmptyString)%string.
           split; [rewrite Hs; apply Hsp|].
           right. exists pre, BACKSLASH. split; [reflexivity|].
           right. repeat split. exact Hno.
        -- intros _ _. exact Hq.
        -- discriminate.
      * assert (r = argv0) as Hr by (subst r; reflexivity). rewrite Hr.
        split; [exact Hno|]. split; [|split].
        -- exists EmptyString. split; [reflexivity | left; reflexivity].
        -- intros _ _. exact (strrchr_None _ _ Eback).
        -- discriminate.
    + assert (r = argv0) as Hr by (subst r; reflexivity). rewrite Hr.
      split; [exact Hno|]. split; [|split].
      * exists EmptyString. split; [reflexivity | left; reflexivity].
      * discriminate.
      * intros _. unfold ident_from_argv0. rewrite Eslash. reflexivity.
Qed.

Lemma X13_witness :
  false = false /\
  ident_from_argv0 false (ident_from_argv0 false "/usr/local/bin/mfdread")
  = ident_from_argv0 false "/usr/local/bin/mfdread".
Proof.
  exact (conj eq_refl
    (proj2 (proj2 (proj2
       (X13_program_name_is_the_base_name false "/usr/local/bin/mfdread")))
       eq_refl)).
Defined.

(** ** The command line *)

Lemma is_flag_step (MAJOR MINOR : Z) (progname said : string)
    (c : Z) (f : flags) :
  is_flag c = true ->
  (c =? -1) = false /\
  handle_option MAJOR MINOR progname said c f =
    inl {| verbose := verbose f + (if (c =? chr "v") || (c =? OPT_VERBOSE)
                                   then 1 else 0);
           flag_force_1k := flag_force_1k f || (c =? chr "1");
           flag_colored := flag_colored f && negb (c =? chr "n") |}.
Proof.
  unfold is_flag, handle_option. rewrite !Bool.orb_true_iff, !Z.eqb_eq.
  intros [[[-> | ->] | ->] | ->]; (split; [reflexivity|]); cbn;
    rewrite ?Z.add_0_r, ?Bool.orb_true_r, ?Bool.orb_false_r,
      ?Bool.andb_true_r, ?Bool.andb_false_r;
    destruct f; reflexivity.
Qed.

(** After options that only set flags, the flags say which of them
    occurred. *)
Lemma option_loop_flags (MAJOR MINOR : Z) (progname : string)
    (said : nat -> string) (l : list Z) (call : nat) (f : flags) :
  forallb is_flag l = true ->
  exists v,
    option_loop MAJOR MINOR progname said call l f =
      inl {| verbose := v;
             flag_force_1k :=
               flag_force_1k f || existsb (fun c => c =? chr "1") l;
             flag_colored :=
               flag_colored f && negb (existsb (fun c => c =? chr "n") l) |}.
Proof.
  revert call f. induction l as [|c l IH]; intros call f H.
  - exists (verbose f). cbn. rewrite Bool.orb_false_r, Bool.andb_true_r.
    destruct f; reflexivity.
  - cbn [forallb] in H. apply Bool.andb_true_iff in H. destruct H as [Hc Hl].
    destruct (is_flag_step MAJOR MINOR progname (said call) c f Hc)
      as [Hm Hstep].
    cbn [option_loop]. rewrite Hm, Hstep.
    match goal with
    | |- context [option_loop _ _ _ _ _ l ?f'] =>
        destruct (IH (S call) f' Hl) as (v & ->)
    end.
    exists v. cbn [flag_force_1k flag_colored existsb].
    rewrite Bool.negb_orb, Bool.orb_assoc, Bool.andb_assoc. reflexivity.
Qed.

Lemma existsb_eqb_In (x : Z) (l : list Z) :
  existsb (fun c => c =? x) l = true <-> In x l.
Proof.
  rewrite existsb_exists. split.
  - intros (y & Hy & E). apply Z.eqb_eq in E. subst. exact Hy.
  - intros H. exists x. split; [exact H | apply Z.eqb_refl].
Qed.

Lemma existsb_same (x : Z) (l l' : list Z) :
  (In x l <-> In x l') ->
  existsb (fun c => c =? x) l = existsb (fun c => c =? x) l'.
Proof.
  intros H. rewrite <- !existsb_eqb_In in H.
  destruct (existsb (fun c => c =? x) l), (existsb (fun c => c =? x) l');
    try reflexivity.
  - symmetry. apply H. reflexivity.
  - apply H. reflexivity.
Qed.

(** X14. Options that only set flags can be given in any order and any
    number of times, and [-v] changes nothing at all: two command lines
    made of [-v], [-1] and [-n] only, of which one has a [-1] when the
    other has and a [-n] when the other has, give the same run on the same
    arguments, files and standard input. *)
Theorem X14_flag_options_commute (MAJOR MINOR : Z) (w w' : world) :
  forallb is_flag (codes w) = true ->
  forallb is_flag (codes w') = true ->
  (In (chr "1") (codes w) <-> In (chr "1") (codes w')) ->
  (In (chr "n") (codes w) <-> In (chr "n") (codes w')) ->
  argv0 w = argv0 w' -> win32 w = win32 w' -> console w = console w' ->
  operands w = operands w' -> stdin w = stdin w' ->
  (forall name, files w name = files w' name) ->
  main MAJOR MINOR w = main MAJOR MINOR w'.
Proof.
  intros Hf Hf' H1 Hn Ha Hw Hc Ho Hs Hfiles.
  unfold main. rewrite <- Ha, <- Hw, <- Hc, <- Ho, <- Hs.
  destruct (option_loop_flags MAJOR MINOR
              (ident_from_argv0 (win32 w) (argv0 w)) (getopt_error w)
              (codes w) 0 initial_flags Hf) as (v & ->).
  destruct (option_loop_flags MAJOR MINOR
              (ident_from_argv0 (win32 w) (argv0 w)) (getopt_error w')
              (codes w') 0 initial_flags Hf') as (v' & ->).
  cbn [flag_force_1k flag_colored initial_flags].
  rewrite (existsb_same _ _ _ H1), (existsb_same _ _ _ Hn).
  destruct (operands w) as [|input_file [|? ?]]; try reflexivity.
  rewrite <- Hfiles. reflexivity.
Qed.

Lemma X14_witness :
  let w := sample_world [chr "n"; chr "1"; chr "v"; chr "n"] in
  let w' := sample_world [chr "1"; chr "n"] in
  forallb is_flag (codes w) = true /\
  forallb is_flag (codes w') = true /\
  main 1 0 w = main 1 0 w'.
Proof.
  intros w w'.
  assert (forallb is_flag (codes w) = true) as H1 by reflexivity.
  assert (forallb is_flag (codes w') = true) as H2 by reflexivity.
  assert (In (chr "1") (codes w) <-> In (chr "1") (codes w')) as H3
    by (split; intros _; cbn; tauto).
  assert (In (chr "n") (codes w) <-> In (chr "n") (codes w')) as H4
    by (split; intros _; cbn; tauto).
  exact (conj H1 (conj H2
    (X14_flag_options_commute 1 0 w w' H1 H2 H3 H4 eq_refl eq_refl eq_refl
       eq_refl eq_refl (fun _ => eq_refl)))).
Defined.

Lemma option_loop_app (MAJOR MINOR : Z) (progname : string)
    (said : nat -> string) (pre l : list Z) (call : nat) (f : flags) :
  forallb is_flag pre = true ->
  exists f',
    option_loop MAJOR MINOR progname said call (pre ++ l) f
    = option_loop MAJOR MINOR progname said (call + List.length pre) l f'.
Proof.
  revert call f. induction pre as [|c pre IH]; intros call f H.
  - exists f. cbn [app List.length]. rewrite Nat.add_0_r. reflexivity.
  - cbn [forallb] in H. apply Bool.andb_true_iff in H.
    destruct H as [Hc Hl].
    destruct (is_flag_step MAJOR MINOR progname (said call) c f Hc)
      as [Hm Hstep].
    cbn [app option_loop List.length]. rewrite Hm, Hstep.
    replace (call + S (List.length pre))%nat
      with (S call + List.length pre)%nat by lia.
    apply IH. exact Hl.
Qed.

(** X15. The first option that is not a flag decides the run, whatever
    follows it and whatever the arguments and files are: [-h], [--help]
    and [--version] print their text, the version numbers cast to [int],
    and exit with success; any other value of [getopt_long] prints the
    help and exits with failure.  For its [?] the message [getopt_long]
    itself wrote for the rejected option is on [stderr]; for another value
    (the [V] that the option string accepts and the [switch] does not
    handle) [stderr] stays empty. *)
Theorem X15_first_decisive_option_ends_the_run
    (MAJOR MINOR : Z) (w : world) (pre rest : list Z) (c : Z) :
  codes w = pre ++ c :: rest ->
  forallb is_flag pre = true ->
  let progname := ident_from_argv0 (win32 w) (argv0 w) in
  (c = chr "h" \/ c = OPT_LONG_HELP ->
   main MAJOR MINOR w
   = {| status := EXIT_SUCCESS; stdout := [print_help progname];
        stderr := [] |}) /\
  (c = OPT_VERSION ->
   main MAJOR MINOR w
   = {| status := EXIT_SUCCESS;
        stdout :=
          [(progname ++ " " ++ dec (to_int MAJOR) ++ "." ++
            dec2 (to_int MINOR) ++ NL ++
            "Copyright (C) 2024 Petr Pazourek GmbH" ++ NL ++
            "Copyright (C) 2014-2024 Pavel Zhovner <pavel@zhovner.com>" ++
            NL ++
            "This program is Free Software and has ABSOLUTELY NO WARRANTY"
            ++ NL)%string];
        stderr := [] |}) /\
  (is_flag c = false -> c <> chr "h" -> c <> OPT_LONG_HELP ->
   c <> OPT_VERSION -> c <> -1 ->
   main MAJOR MINOR w
   = {| status := EXIT_FAILURE; stdout := [print_help progname];
        stderr := if c =? chr "?"
                  then [getopt_error w (List.length pre)] else [] |}).
Proof.
  intros Hcodes Hpre progname. unfold main. fold progname. rewrite Hcodes.
  destruct (option_loop_app MAJOR MINOR progname (getopt_error w) pre
              (c :: rest) 0 initial_flags Hpre) as (f & ->).
  cbn [option_loop Nat.add]. unfold handle_option.
  split; [|split].
  - intros [-> | ->]; reflexivity.
  - intros ->. reflexivity.
  - unfold is_flag. intros Hflag Hh Hlh Hv Hm.
    apply Z.eqb_neq in Hh, Hlh, Hv, Hm. rewrite Hh, Hlh, Hv, Hm.
    rewrite !Bool.orb_false_iff in Hflag.
    destruct Hflag as [[[-> ->] ->] ->]. reflexivity.
Qed.

Lemma X15_witness :
  let w := {| argv0 := "/usr/bin/mfdread";
              codes := [chr "n"; chr "?"; chr "h"];
              getopt_error :=
                fun _ => ("mfdread: invalid option -- 'x'" ++ NL)%string;
              operands := ["dump.mfd"%string];
              files := fun _ => Some sample_dump; stdin := [];
              win32 := false; console := None |} in
  codes w = [chr "n"] ++ chr "?" :: [chr "h"] /\
  forallb is_flag [chr "n"] = true /\
  is_flag (chr "?") = false /\
  main 1 0 w
  = {| status := EXIT_FAILURE; stdout := [print_help "mfdread"];
       stderr := [("mfdread: invalid option -- 'x'" ++ NL)%string] |}.
Proof.
  intros w.
  assert (codes w = [chr "n"] ++ chr "?" :: [chr "h"]) as H1 by reflexivity.
  assert (forallb is_flag [chr "n"] = true) as H2 by reflexivity.
  assert (is_flag (chr "?") = false) as H3 by reflexivity.
  refine (conj H1 (conj H2 (conj H3 _))).
  apply (proj2 (proj2 (X15_first_decisive_option_ends_the_run 1 0 w
                         [chr "n"] [chr "h"] (chr "?") H1 H2)) H3);
    cbv; discriminate.
Defined.

Lemma print_info_streams (o : options) (file : list byte) :
  (exit_code (print_info o file) = 0 /\ err (print_info o file) = [] /\
   out (print_info o file) <> []) \/
  (exit_code (print_info o file) = 1 /\ out (print_info o file) = [] /\
   err (print_info o file) <> []).
Proof.
  destruct (sectors_of_size (data_size_of o file)) as [s|] eqn:Hs.
  - left. destruct (print_info_accepts o file s Hs) as (He & Herr & Hhd & _).
    repeat split; try assumption.
    intros E. rewrite E in Hhd. discriminate.
  - right. rewrite (print_info_rejects o file Hs). repeat split. discriminate.
Qed.

(** How the option loop can end the run. *)
Lemma option_loop_exit (MAJOR MINOR : Z) (progname : string)
    (said : nat -> string) (l : list Z) (call : nat) (f : flags) (r : run) :
  option_loop MAJOR MINOR progname said call l f = inr r ->
  (status r = 0 /\ stdout r <> [] /\ stderr r = []) \/
  (status r = 1 /\ stdout r = [print_help progname] /\
   (stderr r = [] \/
    exists i, nth_error l i = Some (chr "?") /\
              stderr r = [said (call + i)%nat])).
Proof.
  revert call f. induction l as [|c l IH]; intros call f;
    cbn [option_loop]; [discriminate|].
  destruct (c =? -1); [discriminate|].
  destruct (handle_option MAJOR MINOR progname (said call) c f)
    as [f'|r'] eqn:E.
  - intros H. destruct (IH _ _ H) as [H0|(H1 & Hout & [Herr|(i & Hi & Herr)])].
    + left. exact H0.
    + right. auto.
    + right. split; [exact H1|]. split; [exact Hout|]. right.
      exists (S i). split; [exact Hi|].
      rewrite Herr. do 2 f_equal. lia.
  - intros H. injection H as <-. unfold handle_option in E.
    destruct ((c =? chr "h") || (c =? OPT_LONG_HELP));
      [injection E as <-; left; cbn; repeat split; discriminate|].
    destruct (c =? OPT_VERSION);
      [injection E as <-; left; cbn; repeat split; discriminate|].
    destruct ((c =? chr "v") || (c =? OPT_VERBOSE)); [discriminate|].
    destruct (c =? chr "1"); [discriminate|].
    destruct (c =? chr "n"); [discriminate|].
    injection E as <-. right. cbn [status stdout stderr].
    split; [reflexivity|]. split; [reflexivity|].
    destruct (Z.eqb_spec c (chr "?")) as [->|Hne]; [right | left; reflexivity].
    exists 0%nat. split; [reflexivity|]. rewrite Nat.add_0_r. reflexivity.
Qed.

(** X16. The exit status of [main] is 0 or 1 and tells where it wrote.
    With status 0 there is output on [stdout] and nothing on [stderr].
    Whenever something is on [stderr] the status is 1, and [stdout] is
    then empty but for one case: [getopt_long] rejected an option and wrote
    its own message, and [main] then printed the help on [stdout]. *)
Theorem X16_status_tells_the_stream (MAJOR MINOR : Z) (w : world) :
  let r := main MAJOR MINOR w in
  let progname := ident_from_argv0 (win32 w) (argv0 w) in
  (status r = 0 \/ status r = 1) /\
  (status r = 0 -> stdout r <> [] /\ stderr r = []) /\
  (stderr r <> [] ->
   status r = 1 /\
   (stdout r = [] \/
    (stdout r = [print_help progname] /\
     exists i, nth_error (codes w) i = Some (chr "?") /\
               stderr r = [getopt_error w i]))).
Proof.
  intros r progname. subst r. unfold main. fold progname.
  destruct (option_loop MAJOR MINOR progname (getopt_error w) 0 (codes w)
              initial_flags) as [f|r] eqn:E.
  - destruct (operands w) as [|input_file [|? ?]].
    + cbn. split; [right; reflexivity|]. split; [discriminate|].
      intros _. split; [reflexivity | left; reflexivity].
    + destruct (if String.eqb input_file "-" then Some (stdin w)
                else files w input_file) as [content|].
      * cbv zeta. cbn [status stdout stderr].
        match goal with
        | |- context [print_info ?o content] =>
            destruct (print_info_streams o content)
              as [(He & Herr & Hout)|(He & Hout & Herr)];
              rewrite He, ?Herr, ?Hout
        end.
        -- split; [left; reflexivity|]. split.
           ++ intros _. split; [|reflexivity].
              intros H. apply map_eq_nil in H. contradiction.
           ++ intros H. now elim H.
        -- split; [right; reflexivity|]. split; [discriminate|].
           intros _. split; [reflexivity | left; reflexivity].
      * cbn. split; [right; reflexivity|]. split; [discriminate|].
        intros _. split; [reflexivity | left; reflexivity].
    + cbn. split; [right; reflexivity|]. split; [discriminate|].
      intros _. split; [reflexivity | left; reflexivity].
  - destruct (option_loop_exit _ _ _ _ _ _ _ _ E)
      as [(H0 & Hout & Herr)|(H1 & Hout & Herr)].
    + rewrite H0, Herr. split; [left; reflexivity|]. split.
      * intros _. split; [exact Hout | reflexivity].
      * intros H. now elim H.
    + rewrite H1. split; [right; reflexivity|]. split; [discriminate|].
      intros Hne. split; [reflexivity|]. right. split; [exact Hout|].
      destruct Herr as [Herr|(i & Hi & Herr)]; [contradiction|].
      exists i. split; [exact Hi | exact Herr].
Qed.

Lemma X16_witness :
  let w := sample_world [chr "n"] in
  status (main 1 0 w) = 0 /\
  stdout (main 1 0 w) <> [] /\ stderr (main 1 0 w) = [].
Proof.
  intros w.
  assert (status (main 1 0 w) = 0) as H by (vm_compute; reflexivity).
  exact (conj H (proj1 (proj2 (X16_status_tells_the_stream 1 0 w)) H)).
Defined.

(** ** The printed text keeps the whole dump *)

Lemma no_newline_app (a b : string) :
  no_newline (a ++ b) = no_newline a && no_newline b.
Proof.
  unfold no_newline. rewrite chars_app, forallb_app. reflexivity.
Qed.

Lemma no_newline_spaces (n : nat) :
  no_newline (string_of_list_ascii (repeat " "%char n)) = true.
Proof. induction n as [|n IH]; [reflexivity | exact IH]. Qed.

Lemma no_newline_pad_right (w : nat) (s : string) :
  no_newline s = true -> no_newline (pad_right w s) = true.
Proof.
  intros H. unfold pad_right.
  rewrite no_newline_app, H, no_newline_spaces. reflexivity.
Qed.

Lemma no_newline_uint (d : Decimal.uint) :
  no_newline (NilEmpty.string_of_uint d) = true.
Proof.
  induction d; cbn [NilEmpty.string_of_uint]; try reflexivity; exact IHd.
Qed.

Lemma no_newline_dec (n : Z) : no_newline (dec n) = true.
Proof.
  unfold dec, NilZero.string_of_int, NilZero.string_of_uint.
  assert (forall d, no_newline (match d with
                                | Decimal.Nil => "0"%string
                                | _ => NilEmpty.string_of_uint d
                                end) = true) as H
    by (intros d; destruct d; try reflexivity; apply (no_newline_uint (_ _))).
  destruct (Z.to_int n) as [d|d]; [apply H|].
  change (String "-" ?s) with ("-" ++ s)%string.
  rewrite no_newline_app, H. reflexivity.
Qed.

Lemma no_newline_hex2 (v : Z) : no_newline (hex2 v) = true.
Proof.
  assert (forall n, negb (Ascii.eqb (hex_digit n) "010"%char) = true) as H.
  { intros n. unfold hex_digit.
    destruct (nth_in_or_default (Z.to_nat n)
                (list_ascii_of_string "0123456789abcdef") "0"%char)
      as [Hin | ->]; [|reflexivity].
    assert (Forall (fun c => negb (Ascii.eqb c "010"%char) = true)
              (list_ascii_of_string "0123456789abcdef")) as Hall
      by (repeat constructor).
    rewrite Forall_forall in Hall. exact (Hall _ Hin). }
  unfold hex2, no_newline, chars. cbn [list_ascii_of_string forallb].
  rewrite !H. reflexivity.
Qed.

Lemma no_newline_hex_run (p : list byte) (n : nat) :
  no_newline (hex_run p n) = true.
Proof.
  revert p. induction n as [|n IH]; intros p; [reflexivity|].
  rewrite hex_run_succ, no_newline_app, no_newline_hex2, IH. reflexivity.
Qed.

Lemma no_newline_colors (o : options) :
  no_newline (color_keyA (colors o)) = true /\
  no_newline (color_keyB (colors o)) = true /\
  no_newline (color_access (colors o)) = true /\
  no_newline (color_warning (colors o)) = true /\
  no_newline (color_default (colors o)) = true.
Proof. unfold colors. destruct (colored o); repeat split; reflexivity. Qed.

Lemma no_newline_table_entries (c : Z) :
  no_newline (entry bit_rep c) = true /\
  no_newline (entry permission_trailer c) = true /\
  no_newline (entry permission_data c) = true.
Proof.
  unfold entry.
  destruct (Z.to_nat c) as [|[|[|[|[|[|[|[|[|n]]]]]]]]];
    repeat split; try reflexivity; destruct n; reflexivity.
Qed.

Lemma no_newline_data_hex (o : options) (data : list byte) (l : layout)
    (block : Z) :
  no_newline (data_hex (colors o) data l block) = true.
Proof.
  destruct (no_newline_colors o) as (HA & HB & Hacc & _ & Hd).
  unfold data_hex. destruct (block =? u32 _).
  - rewrite !no_newline_app, !no_newline_hex_run, HA, HB, Hacc, Hd.
    reflexivity.
  - apply no_newline_hex_run.
Qed.

Lemma no_newline_columns (o : options) (l : layout) (sector block c : Z) :
  c = -1 \/ 0 <= c <= 7 ->
  no_newline (fst (access_columns (colors o) l sector block c)) = true /\
  no_newline (snd (access_columns (colors o) l sector block c)) = true.
Proof.
  destruct (no_newline_colors o) as (_ & _ & Hacc & Hw & Hd).
  destruct (no_newline_table_entries c) as (T1 & T2 & T3).
  intros [-> | Hr].
  - rewrite access_columns_invalid. cbn [fst snd].
    rewrite !no_newline_app, Hw, Hd. split; reflexivity.
  - rewrite access_columns_valid by exact Hr. cbn [fst snd].
    rewrite !no_newline_app, Hacc, Hd, T1. split; [reflexivity|].
    destruct (_ && _); [reflexivity|].
    destruct (block =? u32 _); assumption.
Qed.

Lemma is_line_app (a b : string) :
  no_newline a = true -> is_line b = true -> is_line (a ++ b) = true.
Proof.
  intros Ha Hb. induction a as [|x a IH]; [exact Hb|].
  unfold no_newline, chars in Ha. cbn [list_ascii_of_string forallb] in Ha.
  apply Bool.andb_true_iff in Ha. destruct Ha as [Hx Ha].
  cbn [append is_line]. apply Bool.negb_true_iff in Hx. rewrite Hx.
  apply IH. exact Ha.
Qed.

Lemma is_line_body (x : string) :
  is_line x = true ->
  exists b, x = (b ++ NL)%string /\ no_newline b = true.
Proof.
  induction x as [|c x IH]; cbn [is_line]; [discriminate|].
  destruct (Ascii.eqb_spec c "010"%char) as [->|Hne].
  - destruct x; [|discriminate]. intros _. exists EmptyString.
    split; reflexivity.
  - intros H. destruct (IH H) as (b & -> & Hb). exists (String c b).
    split; [reflexivity|].
    unfold no_newline, chars. cbn [list_ascii_of_string forallb].
    apply Bool.andb_true_iff. split; [|exact Hb].
    apply Bool.negb_true_iff. apply Ascii.eqb_neq. exact Hne.
Qed.

Ltac no_newline_side :=
  match goal with
  | |- no_newline (dec _) = true => apply no_newline_dec
  | |- no_newline (hex2 _) = true => apply no_newline_hex2
  | |- no_newline (data_hex _ _ _ _) = true => apply no_newline_data_hex
  | |- no_newline (pad_right _ _) = true =>
      apply no_newline_pad_right; no_newline_side
  | |- _ => assumption
  | |- _ => reflexivity
  end.

Ltac line_step :=
  match goal with
  | |- is_line (_ ++ _) = true => apply is_line_app; [no_newline_side|]
  end.

(** Every line of a report is a text without newline followed by one
    newline. *)
Lemma line_shape (o : options) (file : list byte) (line : printed) :
  In line (out (print_info o file)) ->
  is_line (render line) = true.
Proof.
  intros H. destruct (in_report o file line H) as (s & Hs & [Hpre|Hrow]).
  - destruct (no_newline_colors o) as (HA & HB & Hacc & _ & Hd).
    cbn [In] in Hpre.
    destruct Hpre as [<-|[<-|[<-|[<-|[<-|[<-|[<-|[<-|[<-|[]]]]]]]]]];
      cbn [render]; repeat line_step; reflexivity.
  - destruct Hrow as (sector & block & _ & _ & ->).
    unfold render, block_row.
    cbn [str_sector row_block str_data_hex str_access_bits str_permissions
         str_data_ascii].
    destruct (no_newline_columns o (sector_layout sector) sector block _
                (get_access_condition_range
                   (access_bits_of (data_of file) (sector_layout sector))
                   sector block)) as [H3 H4].
    assert (no_newline (if block =? 1 then dec sector else empty_string)
            = true) as H1
      by (destruct (block =? 1); [apply no_newline_dec | reflexivity]).
    repeat line_step. reflexivity.
Qed.

(** Two texts that start with a line start with the same line. *)
Lemma first_line_inj (b b' r r' : string) :
  no_newline b = true -> no_newline b' = true ->
  (b ++ NL ++ r = b' ++ NL ++ r')%string ->
  b = b' /\ r = r'.
Proof.
  revert b'. induction b as [|x b IH]; intros b' Hb Hb' H.
  - destruct b' as [|y b']; cbn in H.
    + injection H as H. split; [reflexivity | exact H].
    + injection H as Hy _. subst y. discriminate Hb'.
  - destruct b' as [|y b']; cbn in H.
    + injection H as Hx _. subst x. discriminate Hb.
    + injection H as Hx H. subst y.
      unfold no_newline, chars in Hb, Hb'.
      cbn [list_ascii_of_string forallb] in Hb, Hb'.
      apply Bool.andb_true_iff in Hb, Hb'.
      destruct (IH b' (proj2 Hb) (proj2 Hb') H) as [-> ->].
      split; reflexivity.
Qed.

(** A text made of lines determines its lines. *)
Lemma lines_of_text_inj (l l' : list string) :
  (forall x, In x l ->
     exists b, x = (b ++ NL)%string /\ no_newline b = true) ->
  (forall x, In x l' ->
     exists b, x = (b ++ NL)%string /\ no_newline b = true) ->
  String.concat "" l = String.concat "" l' ->
  l = l'.
Proof.
  revert l'. induction l as [|x l IH]; intros l' Hl Hl' H.
  - destruct l' as [|x' l']; [reflexivity|].
    destruct (Hl' x' (or_introl eq_refl)) as (b' & -> & _).
    rewrite concat_empty_cons, append_assoc in H.
    destruct b'; discriminate H.
  - destruct (Hl x (or_introl eq_refl)) as (b & -> & Hb).
    destruct l' as [|x' l'].
    + rewrite concat_empty_cons, append_assoc in H.
      destruct b; discriminate H.
    + destruct (Hl' x' (or_introl eq_refl)) as (b' & -> & Hb').
      rewrite !concat_empty_cons, !append_assoc in H.
      destruct (first_line_inj _ _ _ _ Hb Hb' H) as [-> Hrest].
      f_equal. apply IH; [| |exact Hrest].
      * intros y Hy. apply Hl. right. exact Hy.
      * intros y Hy. apply Hl'. right. exact Hy.
Qed.

Lemma lines_of_stdout_text (l l' : list printed) :
  (forall x, In x (map render l) ->
     exists b, x = (b ++ NL)%string /\ no_newline b = true) ->
  (forall x, In x (map render l') ->
     exists b, x = (b ++ NL)%string /\ no_newline b = true) ->
  stdout_text l = stdout_text l' ->
  map render l = map render l'.
Proof. unfold stdout_text. apply lines_of_text_inj. Qed.

Lemma in_rendered (o : options) (file : list byte) (x : string) :
  In x (map render (out (print_info o file))) ->
  exists b, x = (b ++ NL)%string /\ no_newline b = true.
Proof.
  intros H. apply in_map_iff in H. destruct H as (line & <- & Hin).
  apply is_line_body. exact (line_shape o file line Hin).
Qed.

(** Where the line of a block stands in the report. *)
Lemma print_info_out (o : options) (file : list byte) (sectors : Z) :
  sectors_of_size (data_size_of o file) = Some sectors ->
  exists preamble,
    List.length preamble = 9%nat /\
    out (print_info o file)
    = preamble ++ sector_loop (colors o) (data_of file) sectors ++ [Rule].
Proof.
  unfold print_info, data_size_of, data_of.
  destruct (fread_data file) as [data n]. cbn [fst snd].
  intros ->. cbn [out]. eexists. split; [|reflexivity]. reflexivity.
Qed.

Lemma sector_lines_nth (pal : palette) (data : list byte)
    (sector block : Z) :
  0 <= block < blocks (sector_layout sector) ->
  nth_error (Rule :: block_loop pal data sector) (S (Z.to_nat block))
  = Some (Row (block_row pal data sector block)).
Proof.
  intros Hb. cbn [nth_error]. unfold block_loop.
  rewrite for_upto_single by lia.
  replace (0 + Z.of_nat (Z.to_nat block)) with block by lia. reflexivity.
Qed.

Lemma sector_loop_nth (pal : palette) (data : list byte)
    (sectors sector block : Z) :
  0 <= sector < sectors ->
  0 <= block < blocks (sector_layout sector) ->
  nth_error (sector_loop pal data sectors)
    (Z.to_nat (if sector <? 32 then sector * 5 + 1 + block
               else 32 * 5 + (sector - 32) * 17 + 1 + block))
  = Some (Row (block_row pal data sector block)).
Proof.
  intros Hs Hb. unfold sector_loop. rewrite for_upto_split_32.
  pose proof Hb as Hb'. rewrite blocks_of_sector in Hb'.
  assert (forall j, 0 <= j < 32 ->
            List.length (Rule :: block_loop pal data j) = 5%nat) as Hstd.
  { intros j Hj. cbn [List.length].
    rewrite block_loop_length, blocks_of_sector.
    destruct (Z.ltb_spec j 32); [reflexivity | lia]. }
  assert (forall j, 32 <= j ->
            List.length (Rule :: block_loop pal data j) = 17%nat) as Hext.
  { intros j Hj. cbn [List.length].
    rewrite block_loop_length, blocks_of_sector.
    destruct (Z.ltb_spec j 32); [lia | reflexivity]. }
  assert (List.length
            (for_upto (Z.to_nat (Z.min sectors 32)) 0
               (fun sector0 => Rule :: block_loop pal data sector0))
          = (Z.to_nat (Z.min sectors 32) * 5)%nat) as Hlen
    by (apply for_upto_length; intros j Hj; apply Hstd; lia).
  destruct (Z.ltb_spec sector 32) as [Hlt|Hge].
  - rewrite nth_error_app1 by (rewrite Hlen; lia).
    replace (Z.to_nat (sector * 5 + 1 + block))
      with (Z.to_nat sector * 5 + S (Z.to_nat block))%nat by lia.
    rewrite (for_upto_nth_error 5)
      by (try (intros j Hj; apply Hstd); lia).
    replace (0 + Z.of_nat (Z.to_nat sector)) with sector by lia.
    apply sector_lines_nth. exact Hb.
  - rewrite nth_error_app2 by (rewrite Hlen; lia).
    rewrite Hlen.
    replace (Z.to_nat (32 * 5 + (sector - 32) * 17 + 1 + block)
             - Z.to_nat (Z.min sectors 32) * 5)%nat
      with (Z.to_nat (sector - 32) * 17 + S (Z.to_nat block))%nat by lia.
    rewrite (for_upto_nth_error 17)
      by (try (intros j Hj; apply Hext); lia).
    replace (32 + Z.of_nat (Z.to_nat (sector - 32))) with sector by lia.
    apply sector_lines_nth. exact Hb.
Qed.

(** Two buffers whose rows for a block are printed alike have the same
    sixteen bytes in that block. *)
Lemma rendered_row_bytes (pal : palette) (data data' : list byte)
    (sector block : Z) :
  0 <= sector < 40 ->
  0 <= block < blocks (sector_layout sector) ->
  render (Row (block_row pal data sector block))
  = render (Row (block_row pal data' sector block)) ->
  forall i : nat, (i < 16)%nat ->
    rd data (Z.to_nat (sector_start (sector_layout sector) + block * 16) + i)
    = rd data'
        (Z.to_nat (sector_start (sector_layout sector) + block * 16) + i).
Proof.
  intros Hs Hb Hrow.
  unfold render, block_row in Hrow.
  cbn [str_sector row_block str_data_hex str_access_bits str_permissions
       str_data_ascii] in Hrow.
  do 5 apply append_cancel_l in Hrow.
  unfold data_hex in Hrow. rewrite trailer_block_index in Hrow.
  pose proof (block_start_value sector block Hs Hb) as Hbs.
  cbv zeta in Hbs. rewrite Hbs in Hrow.
  unfold keyA_of, access_bits_of, keyB_of in Hrow.
  rewrite !trailer_field_value in Hrow by lia.
  destruct (layout_facts sector Hs) as (H0 & H1 & H2 & H3 & H4).
  set (l := sector_layout sector) in *.
  destruct (Z.eqb_spec block (blocks l - 1)) as [Hlast|Hnot].
  - rewrite !append_assoc in Hrow.
    apply append_cancel_l in Hrow.
    apply hex_run_app_inj in Hrow. destruct Hrow as [HA Hrow].
    apply append_cancel_l in Hrow.
    apply hex_run_app_inj in Hrow. destruct Hrow as [Hacc Hrow].
    apply append_cancel_l in Hrow.
    apply hex_run_app_inj in Hrow. destruct Hrow as [HB _].
    intros i Hi.
    destruct (Nat.lt_ge_cases i 6) as [Hi6|Hi6];
      [|destruct (Nat.lt_ge_cases i 10) as [Hi10|Hi10]].
    + specialize (HA i Hi6). rewrite !rd_at_offset in HA.
      replace (Z.to_nat (sector_start l + block * 16) + i)%nat
        with (Z.to_nat (sector_start l + sector_size l - 16 + 0) + i)%nat
        by lia.
      exact HA.
    + specialize (Hacc (i - 6)%nat ltac:(lia)). rewrite !rd_at_offset in Hacc.
      replace (Z.to_nat (sector_start l + block * 16) + i)%nat
        with (Z.to_nat (sector_start l + sector_size l - 16 + 6) + (i - 6))%nat
        by lia.
      exact Hacc.
    + specialize (HB (i - 10)%nat ltac:(lia)). rewrite !rd_at_offset in HB.
      replace (Z.to_nat (sector_start l + block * 16) + i)%nat
        with (Z.to_nat (sector_start l + sector_size l - 16 + 10)
              + (i - 10))%nat
        by lia.
      exact HB.
  - rewrite H3 in Hrow. intros i Hi.
    apply hex_run_app_inj in Hrow. destruct Hrow as [Hbytes _].
    specialize (Hbytes i ltac:(lia)).
    rewrite !rd_at_offset in Hbytes. exact Hbytes.
Qed.

Lemma print_info_line (o : options) (file : list byte)
    (sectors sector block : Z) :
  sectors_of_size (data_size_of o file) = Some sectors ->
  0 <= sector < sectors ->
  0 <= block < blocks (sector_layout sector) ->
  nth_error (map render (out (print_info o file)))
    (9 + Z.to_nat (if sector <? 32 then sector * 5 + 1 + block
                   else 32 * 5 + (sector - 32) * 17 + 1 + block))
  = Some (render (Row (block_row (colors o) (data_of file) sector block))).
Proof.
  intros Hs Hsec Hb. apply map_nth_error.
  destruct (print_info_out o file sectors Hs) as (pre & Hpre & ->).
  rewrite nth_error_app2 by lia. rewrite Hpre.
  match goal with
  | |- nth_error _ (9 + ?n - 9) = _ => replace (9 + n - 9)%nat with n by lia
  end.
  pose proof (sector_loop_nth (colors o) (data_of file) sectors sector block
                Hsec Hb) as H.
  rewrite nth_error_app1; [exact H|].
  apply nth_error_Some. rewrite H. discriminate.
Qed.

Lemma print_info_out_length (o : options) (file : list byte) (sectors : Z) :
  sectors_of_size (data_size_of o file) = Some sectors ->
  Z.of_nat (List.length (out (print_info o file)))
  = 10 + 5 * Z.max 0 (Z.min sectors 32) + 17 * Z.max 0 (sectors - 32).
Proof.
  intros Hs. destruct (print_info_out o file sectors Hs) as (pre & Hpre & ->).
  rewrite !length_app, Hpre. cbn [List.length].
  pose proof (sector_loop_length (colors o) (data_of file) sectors). lia.
Qed.

(** X7. Without the force flag the text of the report keeps the whole
    dump: two inputs for which [print_info] writes the same characters to
    [stdout], the first of them accepted, are the same sequence of
    bytes. *)
Theorem X7_report_determines_the_dump (c : bool) (file file' : list byte) :
  let o := {| force_1k := false; colored := c |} in
  exit_code (print_info o file) = 0 ->
  stdout_text (out (print_info o file))
  = stdout_text (out (print_info o file')) ->
  file = file'.
Proof.
  intros o Hexit Htext.
  pose proof (lines_of_stdout_text (out (print_info o file))
                (out (print_info o file'))
                (in_rendered o file) (in_rendered o file') Htext) as Hout.
  clear Htext.
  destruct (sectors_of_size (data_size_of o file)) as [s|] eqn:Hs;
    [|rewrite (print_info_rejects o file Hs) in Hexit; discriminate].
  pose proof (print_info_out_length o file s Hs) as Hlen.
  assert (List.length (out (print_info o file))
          = List.length (out (print_info o file'))) as Hcount
    by (rewrite <- (length_map render (out (print_info o file))),
          <- (length_map render (out (print_info o file'))), Hout;
        reflexivity).
  destruct (sectors_of_size (data_size_of o file')) as [s'|] eqn:Hs'.
  2:{ assert (out (print_info o file') = []) as Hnone
        by (rewrite (print_info_rejects o file' Hs'); reflexivity).
      rewrite Hnone in Hcount.
      change (List.length (@nil printed)) with 0%nat in Hcount. lia. }
  pose proof (print_info_out_length o file' s' Hs') as Hlen'.
  assert (s' = s /\ data_size_of o file' = data_size_of o file) as [-> Hsize].
  { destruct (sectors_of_size_Some _ _ Hs)
      as [[E1 E2]|[[E1 E2]|[[E1 E2]|[E1 E2]]]];
      destruct (sectors_of_size_Some _ _ Hs')
        as [[F1 F2]|[[F1 F2]|[[F1 F2]|[F1 F2]]]];
      subst s s'; split; lia. }
  assert (data_size_of o file = Z.of_nat (List.length file)
          /\ data_size_of o file' = Z.of_nat (List.length file')
          /\ data_size_of o file <= 4096) as (Hl & Hl' & Hmax).
  { assert (forall f, data_size_of o f
                      = Z.of_nat (Nat.min (List.length f) 4097)) as Hd
      by (intros f; unfold data_size_of; cbn [o force_1k];
          apply data_size_read).
    rewrite !Hd in Hsize. rewrite Hd in Hs. rewrite !Hd.
    destruct (sectors_of_size_Some _ _ Hs)
      as [[E _]|[[E _]|[[E _]|[E _]]]]; lia. }
  assert (s <= 40) as H40
    by (destruct (sectors_of_size_Some _ _ Hs)
          as [[_ ->]|[[_ ->]|[[_ ->]|[_ ->]]]]; lia).
  apply (nth_ext _ _ x00 x00); [lia|].
  intros i Hi. apply byte_val_inj.
  destruct (locate_byte _ s (Z.of_nat i) Hs ltac:(lia))
    as (sector & block & j & Hsec & Hb & Hj & Hloc).
  pose proof (print_info_line o file s sector block Hs Hsec Hb) as R.
  pose proof (print_info_line o file' s sector block Hs' Hsec Hb) as R'.
  rewrite <- Hout in R'.
  pose proof (f_equal (fun x => match x with
                                | Some y => y
                                | None => EmptyString
                                end) (eq_trans (eq_sym R) R')) as Hrow.
  cbv beta iota in Hrow.
  pose proof (rendered_row_bytes (colors o) (data_of file) (data_of file')
                sector block ltac:(lia) Hb Hrow (Z.to_nat j) ltac:(lia)) as E.
  destruct (layout_facts sector ltac:(lia)) as (H0 & _).
  replace (Z.to_nat (sector_start (sector_layout sector) + block * 16)
           + Z.to_nat j)%nat with i in E by lia.
  rewrite !rd_data_of in E by lia. exact E.
Qed.

Lemma X7_witness :
  let o := {| force_1k := false; colored := true |} in
  exit_code (print_info o sample_dump) = 0 /\
  stdout_text (out (print_info o sample_dump))
  = stdout_text (out (print_info o sample_dump)) /\
  sample_dump = sample_dump.
Proof.
  intros o.
  assert (exit_code (print_info o sample_dump) = 0) as H1
    by (vm_compute; reflexivity).
  assert (stdout_text (out (print_info o sample_dump))
          = stdout_text (out (print_info o sample_dump)))
    as H2 by reflexivity.
  exact (conj H1 (conj H2
    (X7_report_determines_the_dump true sample_dump sample_dump H1 H2))).
Defined.
